(** * RISCVInstrInfo: branch analysis, branch insertion, condition
      reversal, frame-slot moves and constant materialisation.

    A shallow embedding of [lib/Target/RISCV/RISCVInstrInfo.cpp].
    Machine integers are [Z] with their wrap-around written out, a basic
    block is the list of its instructions together with its layout
    successor, an iterator is an index into that list, and every
    [assert] / [llvm_unreachable] of the source is a fatal result. *)

From Stdlib Require Import ZArith List Bool Lia.
Import ListNotations.
Open Scope Z_scope.

(** ** Fatal conditions and results *)

(** The assertions and [llvm_unreachable]s of the file.  Each constructor
    stands for the source message quoted next to it. *)
Inductive Fatal : Type :=
| InsertFallthrough          (* "InsertBranch must not be told to insert a fallthrough" *)
| TooManyComponents          (* "RISCV branch conditions have less than four components!",
                                assert(Cond.size() <= 4) *)
| InvalidBranchShape         (* "Unconditional branch with multiple successors!",
                                "Can not insert two-way branch!" *)
| InvalidConditionForInsert  (* "Invalid branch condition code!" *)
| InvalidCondition           (* "Invalid branch condition!" *)
| UnknownBranchOpcode        (* "Unknown branch opcode" *)
| ConstantTooLarge           (* "Huge values not handled yet" *)
| MissingTrueTarget          (* assert(TBB) in AnalyzeBranch *)
| BadOperandAccess           (* getOperand out of range, getImm/getReg/getIndex
                                on an operand of another kind, Cond[i] out of range *)
| BadIterator.               (* dereferencing an iterator that is not in the block *)

Inductive Result (A : Type) : Type :=
| Ok (a : A)
| Abort (e : Fatal).
Arguments Ok {A} a.
Arguments Abort {A} e.

Definition bind {A B : Type} (r : Result A) (k : A -> Result B) : Result B :=
  match r with
  | Ok a => k a
  | Abort e => Abort e
  end.

Notation "x <- r ;; k" := (bind r (fun x => k))
  (at level 61, r at next level, right associativity).

Definition assert (b : bool) (e : Fatal) : Result unit :=
  if b then Ok tt else Abort e.

(** ** Machine integers *)

(** Conversion of an integer to [unsigned] (32 bits). *)
Definition to_unsigned (z : Z) : Z := z mod 2 ^ 32.

(** Conversion of an integer to [int] (32 bits, two's complement). *)
Definition to_int (z : Z) : Z := (z + 2 ^ 31) mod 2 ^ 32 - 2 ^ 31.

(** [isInt<N>(x)] of MathExtras.h: x fits a signed N-bit field. *)
Definition isInt (N : Z) (x : Z) : bool :=
  (- 2 ^ (N - 1) <=? x) && (x <? 2 ^ (N - 1)).

(** ** Instructions, operands and blocks *)

(** A block is referred to by its number. *)
Definition MBBRef : Type := nat.
Bind Scope nat_scope with MBBRef.

(** The opcodes the file names; all others are [OtherOpcode]. *)
Inductive Opcode : Type :=
| J | JAL | JALR
| BEQ | BNE | BLT | BLTU | BGE | BGEU
| BGT | BGTU | BLE | BLEU
| ADD | ADDI | ORI | LUI | LLI | LW | SW
| DBG_VALUE
| OtherOpcode (n : nat).

(** A tagged operand.  A register operand carries its definition flag. *)
Inductive MachineOperand : Type :=
| MO_Register (Reg : Z) (IsDef : bool)
| MO_Immediate (Imm : Z)
| MO_FrameIndex (Index : Z)
| MO_MachineBasicBlock (MBB : MBBRef).

Record MachineInstr : Type := mkMI {
  getOpcode : Opcode;
  Operands : list MachineOperand
}.

Record MachineBasicBlock : Type := mkMBB {
  Insts : list MachineInstr;
  (* the block that follows this one in the function, if any *)
  LayoutSuccessor : option MBBRef
}.

Definition isFI (MO : MachineOperand) : bool :=
  match MO with MO_FrameIndex _ => true | _ => false end.

Definition isMBB (MO : MachineOperand) : bool :=
  match MO with MO_MachineBasicBlock _ => true | _ => false end.

Definition getImm (MO : MachineOperand) : Result Z :=
  match MO with MO_Immediate i => Ok i | _ => Abort BadOperandAccess end.

Definition getReg (MO : MachineOperand) : Result Z :=
  match MO with MO_Register r _ => Ok r | _ => Abort BadOperandAccess end.

Definition getIndex (MO : MachineOperand) : Result Z :=
  match MO with MO_FrameIndex i => Ok i | _ => Abort BadOperandAccess end.

Definition getMBB (MO : MachineOperand) : Result MBBRef :=
  match MO with MO_MachineBasicBlock b => Ok b | _ => Abort BadOperandAccess end.

Definition setImm (MO : MachineOperand) (i : Z) : Result MachineOperand :=
  match MO with MO_Immediate _ => Ok (MO_Immediate i) | _ => Abort BadOperandAccess end.

Definition CreateImm (i : Z) : MachineOperand := MO_Immediate i.

(** [v[i]] on an operand vector. *)
Definition at_ (v : list MachineOperand) (i : nat) : Result MachineOperand :=
  match nth_error v i with
  | Some MO => Ok MO
  | None => Abort BadOperandAccess
  end.

Definition getOperand (MI : MachineInstr) (i : nat) : Result MachineOperand :=
  at_ (Operands MI) i.

(** Modelled from the spec: [MachineInstr::getNumExplicitOperands] is not
    part of this file.  The spec has an instruction be "an opcode plus an
    ordered sequence of operands" and the captured tuple be "code +
    operands"; [Operands] holds exactly these explicit operands. *)
Definition getNumExplicitOperands (MI : MachineInstr) : nat :=
  length (Operands MI).

Definition isDebugValue (MI : MachineInstr) : bool :=
  match getOpcode MI with DBG_VALUE => true | _ => false end.

Definition isLayoutSuccessor (MBB : MachineBasicBlock) (B : MBBRef) : bool :=
  match LayoutSuccessor MBB with
  | Some Next => Nat.eqb Next B
  | None => false
  end.

(** [BuildMI(&MBB, DL, MCID)]: a new instruction appended to the block. *)
Definition BuildMI_end (MBB : MachineBasicBlock) (Op : Opcode)
    (Ops : list MachineOperand) : MachineBasicBlock :=
  mkMBB (Insts MBB ++ [mkMI Op Ops]) (LayoutSuccessor MBB).

(** [BuildMI(MBB, I, DL, MCID, DestReg)]: a new instruction defining
    [DestReg], inserted before position [I]. *)
Definition BuildMI_at (MBB : MachineBasicBlock) (I : nat) (Op : Opcode)
    (DestReg : Z) (Ops : list MachineOperand) : MachineBasicBlock :=
  mkMBB (firstn I (Insts MBB) ++ mkMI Op (MO_Register DestReg true :: Ops)
           :: skipn I (Insts MBB))
        (LayoutSuccessor MBB).

(** [I->eraseFromParent()] for the instruction at position [I]. *)
Definition eraseFromParent (MBB : MachineBasicBlock) (I : nat) : MachineBasicBlock :=
  mkMBB (firstn I (Insts MBB) ++ skipn (S I) (Insts MBB)) (LayoutSuccessor MBB).

(** [while (llvm::next(I) != MBB.end()) llvm::next(I)->eraseFromParent();]
    every instruction after position [I] is erased. *)
Definition eraseAfter (MBB : MachineBasicBlock) (I : nat) : MachineBasicBlock :=
  mkMBB (firstn (S I) (Insts MBB)) (LayoutSuccessor MBB).

(** ** What the file takes from the rest of the backend *)

(** The condition-code masks of namespace [RISCV] (declared in RISCV.h,
    which is not part of this file).  They are [const unsigned]. *)
Class CondCodeMasks : Type := {
  CCMASK_CMP_EQ : Z;
  CCMASK_CMP_NE : Z;
  CCMASK_CMP_LT : Z;
  CCMASK_CMP_GE : Z;
  CCMASK_CMP_GT : Z;
  CCMASK_CMP_LE : Z;
  CCMASK_CMP_UO : Z;
  CCMASK_ANY : Z
}.

(** The generated instruction tables, the target flags of namespace
    [RISCVII], the register enumeration and the subtarget. *)
Class TargetInfo : Type := {
  (* MCInstrDesc::TSFlags of an opcode *)
  TSFlags : Opcode -> Z;
  SimpleLoad : Z;
  SimpleStore : Z;
  (* MCInstrDesc::isBranch of an opcode *)
  descIsBranch : Opcode -> bool;
  (* TargetInstrInfo::isUnpredicatedTerminator *)
  isUnpredicatedTerminator : MachineInstr -> bool;
  (* RISCV::zero *)
  zero : Z;
  (* RISCVSubtarget::isRV64 *)
  isRV64 : bool
}.

Inductive TargetRegisterClass : Type :=
| GR32BitRegClass
| GR64BitRegClass
| ADDR32BitRegClass.

(** Modelled from the spec: [MachineRegisterInfo::createVirtualRegister]
    is not part of this file ("a virtual-register allocator:
    createVirtualRegister(registerClass) -> registerId").  The register
    file is the list of the classes of the virtual registers made so far;
    a new register is numbered after them, with the virtual-register bit
    set. *)
Definition MachineRegisterInfo : Type := list TargetRegisterClass.

Definition createVirtualRegister (RegInfo : MachineRegisterInfo)
    (RC : TargetRegisterClass) : Z * MachineRegisterInfo :=
  (Z.lor (Z.of_nat (length RegInfo)) (2 ^ 31), RegInfo ++ [RC]).

Section RISCVInstrInfo.

Context {masks : CondCodeMasks} {TI : TargetInfo}.

(** ** isSimpleMove, isLoadFromStackSlot, isStoreToStackSlot *)

(** The result pairs the returned [int] with the value of the reference
    parameter [FrameIndex] on return. *)
Definition isSimpleMove (MI : MachineInstr) (FrameIndex : Z) (Flag : Z)
    : Result (Z * Z) :=
  if negb (Z.land (TSFlags (getOpcode MI)) Flag =? 0) then
    Op1 <- getOperand MI 1 ;;
    if isFI Op1 then
      Op2 <- getOperand MI 2 ;;
      Disp <- getImm Op2 ;;
      if Disp =? 0 then
        Op3 <- getOperand MI 3 ;;
        Base <- getReg Op3 ;;
        if Base =? 0 then
          Index <- getIndex Op1 ;;
          Op0 <- getOperand MI 0 ;;
          R <- getReg Op0 ;;
          Ok (to_int R, Index)
        else Ok (0, FrameIndex)
      else Ok (0, FrameIndex)
    else Ok (0, FrameIndex)
  else Ok (0, FrameIndex).

Definition isLoadFromStackSlot (MI : MachineInstr) (FrameIndex : Z)
    : Result (Z * Z) :=
  r <- isSimpleMove MI FrameIndex SimpleLoad ;;
  Ok (to_unsigned (fst r), snd r).

Definition isStoreToStackSlot (MI : MachineInstr) (FrameIndex : Z)
    : Result (Z * Z) :=
  r <- isSimpleMove MI FrameIndex SimpleStore ;;
  Ok (to_unsigned (fst r), snd r).

(** ** isBranch *)

(** [None] is the source's [false]; [Some (Cond, Target)] is [true] with
    the two reference parameters set. *)
Definition isBranch (MI : MachineInstr) : Result (option (Z * MachineOperand)) :=
  match getOpcode MI with
  | J | JAL | JALR =>
      Target <- getOperand MI 0 ;; Ok (Some (CCMASK_ANY, Target))
  | BEQ =>
      Target <- getOperand MI 2 ;; Ok (Some (CCMASK_CMP_EQ, Target))
  | BNE =>
      Target <- getOperand MI 2 ;; Ok (Some (CCMASK_CMP_NE, Target))
  | BLT =>
      Target <- getOperand MI 2 ;; Ok (Some (CCMASK_CMP_LT, Target))
  | BLTU =>
      Target <- getOperand MI 2 ;;
      Ok (Some (Z.lor CCMASK_CMP_LT CCMASK_CMP_UO, Target))
  | BGE =>
      Target <- getOperand MI 2 ;; Ok (Some (CCMASK_CMP_GE, Target))
  | BGEU =>
      Target <- getOperand MI 2 ;;
      Ok (Some (Z.lor CCMASK_CMP_GE CCMASK_CMP_UO, Target))
  | BGT =>
      Target <- getOperand MI 2 ;; Ok (Some (CCMASK_CMP_GT, Target))
  | BGTU =>
      Target <- getOperand MI 2 ;;
      Ok (Some (Z.lor CCMASK_CMP_GT CCMASK_CMP_UO, Target))
  | BLE =>
      Target <- getOperand MI 2 ;; Ok (Some (CCMASK_CMP_LE, Target))
  | BLEU =>
      Target <- getOperand MI 2 ;;
      Ok (Some (Z.lor CCMASK_CMP_LE CCMASK_CMP_UO, Target))
  | _ =>
      _ <- assert (negb (descIsBranch (getOpcode MI))) UnknownBranchOpcode ;;
      Ok None
  end.

(** ** ReverseBranchCondition *)

(** [Cond[0].setImm(v); return false;] *)
Definition setCode (Cond : list MachineOperand) (v : Z)
    : Result (bool * list MachineOperand) :=
  C0 <- at_ Cond 0 ;;
  C0' <- setImm C0 v ;;
  Ok (false, C0' :: tl Cond).

Definition ReverseBranchCondition (Cond : list MachineOperand)
    : Result (bool * list MachineOperand) :=
  _ <- assert (length Cond <=? 4)%nat InvalidCondition ;;
  C0 <- at_ Cond 0 ;;
  CC <- getImm C0 ;;
  if CC =? CCMASK_CMP_EQ then setCode Cond CCMASK_CMP_NE
  else if CC =? CCMASK_CMP_NE then setCode Cond CCMASK_CMP_EQ
  else if CC =? CCMASK_CMP_LT then setCode Cond CCMASK_CMP_GE
  else if CC =? CCMASK_CMP_GE then setCode Cond CCMASK_CMP_LT
  else if CC =? Z.lor CCMASK_CMP_LT CCMASK_CMP_UO
    then setCode Cond (Z.lor CCMASK_CMP_GE CCMASK_CMP_UO)
  else if CC =? Z.lor CCMASK_CMP_GE CCMASK_CMP_UO
    then setCode Cond (Z.lor CCMASK_CMP_LT CCMASK_CMP_UO)
  else if CC =? CCMASK_CMP_GT then setCode Cond CCMASK_CMP_LE
  else if CC =? CCMASK_CMP_LE then setCode Cond CCMASK_CMP_GT
  else if CC =? Z.lor CCMASK_CMP_GT CCMASK_CMP_UO
    then setCode Cond (Z.lor CCMASK_CMP_LE CCMASK_CMP_UO)
  else if CC =? Z.lor CCMASK_CMP_LE CCMASK_CMP_UO
    then setCode Cond (Z.lor CCMASK_CMP_GT CCMASK_CMP_UO)
  else Abort InvalidCondition.

(** ** InsertBranch *)

(** [BuildMI(&MBB, DL, get(Opc)).addReg(Cond[1].getReg())
      .addReg(Cond[2].getReg()).addMBB(TBB)] *)
Definition buildCondBranch (MBB : MachineBasicBlock) (Opc : Opcode)
    (Cond : list MachineOperand) (TBB : MBBRef) : Result MachineBasicBlock :=
  C1 <- at_ Cond 1 ;;
  R1 <- getReg C1 ;;
  C2 <- at_ Cond 2 ;;
  R2 <- getReg C2 ;;
  Ok (BuildMI_end MBB Opc
        [MO_Register R1 false; MO_Register R2 false; MO_MachineBasicBlock TBB]).

(** The result pairs the returned count with the block on return. *)
Definition InsertBranch (MBB : MachineBasicBlock) (TBB FBB : option MBBRef)
    (Cond : list MachineOperand) : Result (Z * MachineBasicBlock) :=
  match TBB with
  | None => Abort InsertFallthrough
  | Some T =>
    _ <- assert (length Cond <=? 4)%nat TooManyComponents ;;
    match Cond with
    | [] =>
        (* Unconditional branch *)
        match FBB with
        | Some _ => Abort InvalidBranchShape
        | None => Ok (1, BuildMI_end MBB J [MO_MachineBasicBlock T])
        end
    | C0 :: _ =>
        (* Conditional branch. *)
        let Count := 0 in
        Imm0 <- getImm C0 ;;
        let CC := to_unsigned Imm0 in
        MBB' <-
          (if CC =? CCMASK_CMP_EQ then buildCondBranch MBB BEQ Cond T
           else if CC =? CCMASK_CMP_NE then buildCondBranch MBB BNE Cond T
           else if CC =? CCMASK_CMP_LT then buildCondBranch MBB BLT Cond T
           else if CC =? Z.lor CCMASK_CMP_LT CCMASK_CMP_UO
             then buildCondBranch MBB BLTU Cond T
           else if CC =? CCMASK_CMP_GE then buildCondBranch MBB BGE Cond T
           else if CC =? Z.lor CCMASK_CMP_GE CCMASK_CMP_UO
             then buildCondBranch MBB BGEU Cond T
           else Abort InvalidConditionForInsert) ;;
        let Count := Count + 1 in
        match FBB with
        | Some _ => Abort InvalidBranchShape
        | None => Ok (Count, MBB')
        end
    end
  end.

(** ** AnalyzeBranch *)

(** The block and the three reference parameters when the function
    returns. *)
Record BranchState : Type := mkBranchState {
  stMBB : MachineBasicBlock;
  stTBB : option MBBRef;
  stFBB : option MBBRef;
  stCond : list MachineOperand
}.

(** The loop of [AnalyzeBranch]; the iterator [I] is a position in the
    block ([MBB.begin()] is 0, [MBB.end()] is the length).  [None] is
    returned when [fuel] iterations were not enough; the returned boolean
    is the one of the source, true when the block cannot be analysed. *)
Fixpoint AnalyzeBranch_loop (fuel : nat) (AllowModify : bool)
    (MBB : MachineBasicBlock) (I : nat) (TBB FBB : option MBBRef)
    (Cond : list MachineOperand) : option (Result (bool * BranchState)) :=
  match fuel with
  | O => None
  | S fuel =>
    if (I =? 0)%nat then Some (Ok (false, mkBranchState MBB TBB FBB Cond))
    else
      let I := (I - 1)%nat in
      match nth_error (Insts MBB) I with
      | None => Some (Abort BadIterator)
      | Some MI =>
        if isDebugValue MI then
          AnalyzeBranch_loop fuel AllowModify MBB I TBB FBB Cond
        else if negb (isUnpredicatedTerminator MI) then
          (* a non-terminator instruction: done *)
          Some (Ok (false, mkBranchState MBB TBB FBB Cond))
        else
          match isBranch MI with
          | Abort e => Some (Abort e)
          | Ok None => Some (Ok (true, mkBranchState MBB TBB FBB Cond))
          | Ok (Some (ThisCond, ThisTarget)) =>
            match ThisTarget with
            | MO_MachineBasicBlock Dest =>
              if ThisCond =? CCMASK_ANY then
                (* Handle unconditional branches. *)
                if negb AllowModify then
                  AnalyzeBranch_loop fuel AllowModify MBB I (Some Dest) FBB Cond
                else
                  (* If the block has any instructions after a JMP, delete them. *)
                  let MBB := eraseAfter MBB I in
                  (* Delete the JMP if it's equivalent to a fall-through. *)
                  if isLayoutSuccessor MBB Dest then
                    let MBB := eraseFromParent MBB I in
                    AnalyzeBranch_loop fuel AllowModify MBB (length (Insts MBB))
                      None None []
                  else
                    AnalyzeBranch_loop fuel AllowModify MBB I (Some Dest) None []
              else
                match Cond with
                | [] =>
                  (* Working from the bottom, handle the first conditional branch. *)
                  AnalyzeBranch_loop fuel AllowModify MBB I (Some Dest) TBB
                    (CreateImm ThisCond
                       :: firstn (getNumExplicitOperands MI) (Operands MI))
                | C0 :: _ =>
                  (* Handle subsequent conditional branches. *)
                  if negb (length Cond <=? 4)%nat then Some (Abort TooManyComponents)
                  else
                    match TBB with
                    | None => Some (Abort MissingTrueTarget)
                    | Some T =>
                      if negb (T =? Dest)%nat then
                        Some (Ok (true, mkBranchState MBB TBB FBB Cond))
                      else
                        match getImm C0 with
                        | Abort e => Some (Abort e)
                        | Ok Imm0 =>
                          let OldCond := to_unsigned Imm0 in
                          if OldCond =? ThisCond then
                            AnalyzeBranch_loop fuel AllowModify MBB I TBB FBB Cond
                          else
                            AnalyzeBranch_loop fuel AllowModify MBB I TBB FBB Cond
                        end
                    end
                end
            | _ =>
              (* Can't handle indirect branches. *)
              Some (Ok (true, mkBranchState MBB TBB FBB Cond))
            end
          end
      end
  end.

(** Every iteration moves the iterator one position down, so one more
    iteration than the block has instructions is enough
    ([AnalyzeBranch_terminates] below). *)
Definition AnalyzeBranch (MBB : MachineBasicBlock) (TBB FBB : option MBBRef)
    (Cond : list MachineOperand) (AllowModify : bool)
    : option (Result (bool * BranchState)) :=
  AnalyzeBranch_loop (S (length (Insts MBB))) AllowModify MBB
    (length (Insts MBB)) TBB FBB Cond.

(** ** loadImmediate *)

(** The result is the block, the register file and [*Reg] on return.
    [MBBI] is the position the instructions are inserted before. *)
Definition loadImmediate (MBB : MachineBasicBlock) (MBBI : nat)
    (RegInfo : MachineRegisterInfo) (Value : Z)
    : Result (MachineBasicBlock * MachineRegisterInfo * Z) :=
  let RC := if isRV64 then GR64BitRegClass else GR32BitRegClass in
  (* create virtual reg to store immediate *)
  let (Reg, RegInfo) := createVirtualRegister RegInfo RC in
  if isInt 12 Value then
    Ok (BuildMI_at MBB MBBI ADDI Reg [MO_Register zero false; MO_Immediate Value],
        RegInfo, Reg)
  else
    _ <- assert (isInt 32 Value) ConstantTooLarge ;;
    let upper20 :=
      if negb (Z.land Value 0x800 =? 0)
      then Z.land 0xFFFFF (Z.shiftr Value 12)
      else Z.land 0xFFFFF (Z.shiftr Value 12 + 1) in
    let lower12 := Z.land 0xFFF Value in
    let MBB := BuildMI_at MBB MBBI LUI Reg [MO_Immediate upper20] in
    let MBB := BuildMI_at MBB (S MBBI) LLI Reg
                 [MO_Register zero false; MO_Immediate lower12] in
    Ok (MBB, RegInfo, Reg).

(** ** RemoveBranch *)

(** The loop of [RemoveBranch].  After an erasure the iterator is set
    back to [MBB.end()].  The count is an [unsigned].  [None] is returned
    when [fuel] iterations were not enough. *)
Fixpoint RemoveBranch_loop (fuel : nat) (MBB : MachineBasicBlock) (I : nat)
    (Count : Z) : option (Result (Z * MachineBasicBlock)) :=
  match fuel with
  | O => None
  | S fuel =>
    if (I =? 0)%nat then Some (Ok (Count, MBB))
    else
      let I := (I - 1)%nat in
      match nth_error (Insts MBB) I with
      | None => Some (Abort BadIterator)
      | Some MI =>
        if isDebugValue MI then RemoveBranch_loop fuel MBB I Count
        else
          match isBranch MI with
          | Abort e => Some (Abort e)
          | Ok None => Some (Ok (Count, MBB))
          | Ok (Some (_, Target)) =>
            if negb (isMBB Target) then Some (Ok (Count, MBB))
            else
              (* Remove the branch. *)
              let MBB := eraseFromParent MBB I in
              RemoveBranch_loop fuel MBB (length (Insts MBB))
                (to_unsigned (Count + 1))
          end
      end
  end.

(** The result pairs the returned count with the block on return.  An
    iteration either moves the iterator down or erases an instruction, so
    the fuel given is enough ([RemoveBranch_spec] below). *)
Definition RemoveBranch (MBB : MachineBasicBlock)
    : option (Result (Z * MachineBasicBlock)) :=
  RemoveBranch_loop (S (length (Insts MBB) * S (length (Insts MBB))))
    MBB (length (Insts MBB)) 0.

(** ** getOpcodeForOffset *)

(** Conversion of an integer to [uint64_t]. *)
Definition to_uint64 (z : Z) : Z := z mod 2 ^ 64.

(** [isUInt<N>(x)] of MathExtras.h, its argument converted to
    [uint64_t]. *)
Definition isUInt (N : Z) (x : Z) : bool := to_uint64 x <? 2 ^ N.

(** [None] is the returned 0, no opcode.  The descriptor [get(Opcode)]
    is fetched by the source and not used. *)
Definition getOpcodeForOffset (Opc : Opcode) (Offset : Z) : option Opcode :=
  let Offset2 := Offset in
  if isUInt 12 Offset && isUInt 12 Offset2 then Some Opc
  else if isInt 20 Offset && isInt 20 Offset2 then Some Opc
  else None.

End RISCVInstrInfo.

(** ** A concrete backend

    One assignment of the masks and tables, used to run the functions on
    concrete blocks: the four condition bits are 8, 4, 2 and 1, the
    branches and jumps are the terminators, and the word load and store
    carry the simple-move flags. *)
Module Sample.

Definition masks : CondCodeMasks := {|
  CCMASK_CMP_EQ := 8;
  CCMASK_CMP_NE := 6;
  CCMASK_CMP_LT := 4;
  CCMASK_CMP_GE := 10;
  CCMASK_CMP_GT := 2;
  CCMASK_CMP_LE := 12;
  CCMASK_CMP_UO := 1;
  CCMASK_ANY := 15
|}.

Definition isBranchOpcode (Op : Opcode) : bool :=
  match Op with
  | J | JAL | JALR | BEQ | BNE | BLT | BLTU | BGE | BGEU
  | BGT | BGTU | BLE | BLEU => true
  | _ => false
  end.

Definition target : TargetInfo := {|
  TSFlags := fun Op => match Op with LW => 1 | SW => 2 | _ => 0 end;
  SimpleLoad := 1;
  SimpleStore := 2;
  descIsBranch := isBranchOpcode;
  isUnpredicatedTerminator := fun MI => isBranchOpcode (getOpcode MI);
  zero := 1;
  isRV64 := false
|}.

(** [Opc r1, r2, Dest] *)
Definition br (Opc : Opcode) (r1 r2 : Z) (Dest : MBBRef) : MachineInstr :=
  mkMI Opc [MO_Register r1 false; MO_Register r2 false; MO_MachineBasicBlock Dest].

(** [j Dest] *)
Definition jump (Dest : MBBRef) : MachineInstr :=
  mkMI J [MO_MachineBasicBlock Dest].

(** [addi rd, rs, imm], not a terminator *)
Definition addi (rd rs imm : Z) : MachineInstr :=
  mkMI ADDI [MO_Register rd true; MO_Register rs false; MO_Immediate imm].

End Sample.

(** ** Vocabulary of the statements *)

Section Vocabulary.

Context {masks : CondCodeMasks} {TI : TargetInfo}.

(** The ten predicate codes, in the order of the case labels of
    [ReverseBranchCondition]. *)
Definition validCodes : list Z :=
  [ CCMASK_CMP_EQ; CCMASK_CMP_NE; CCMASK_CMP_LT; CCMASK_CMP_GE;
    Z.lor CCMASK_CMP_LT CCMASK_CMP_UO; Z.lor CCMASK_CMP_GE CCMASK_CMP_UO;
    CCMASK_CMP_GT; CCMASK_CMP_LE;
    Z.lor CCMASK_CMP_GT CCMASK_CMP_UO; Z.lor CCMASK_CMP_LE CCMASK_CMP_UO ].

(** The pairing EQ/NE, LT/GE, LT|U/GE|U, GT/LE, GT|U/LE|U, both ways. *)
Definition invertPairs : list (Z * Z) :=
  [ (CCMASK_CMP_EQ, CCMASK_CMP_NE); (CCMASK_CMP_NE, CCMASK_CMP_EQ);
    (CCMASK_CMP_LT, CCMASK_CMP_GE); (CCMASK_CMP_GE, CCMASK_CMP_LT);
    (Z.lor CCMASK_CMP_LT CCMASK_CMP_UO, Z.lor CCMASK_CMP_GE CCMASK_CMP_UO);
    (Z.lor CCMASK_CMP_GE CCMASK_CMP_UO, Z.lor CCMASK_CMP_LT CCMASK_CMP_UO);
    (CCMASK_CMP_GT, CCMASK_CMP_LE); (CCMASK_CMP_LE, CCMASK_CMP_GT);
    (Z.lor CCMASK_CMP_GT CCMASK_CMP_UO, Z.lor CCMASK_CMP_LE CCMASK_CMP_UO);
    (Z.lor CCMASK_CMP_LE CCMASK_CMP_UO, Z.lor CCMASK_CMP_GT CCMASK_CMP_UO) ].

(** The six codes the hardware encodes, each with its branch opcode. *)
Definition nativeBranches : list (Z * Opcode) :=
  [ (CCMASK_CMP_EQ, BEQ); (CCMASK_CMP_NE, BNE); (CCMASK_CMP_LT, BLT);
    (Z.lor CCMASK_CMP_LT CCMASK_CMP_UO, BLTU); (CCMASK_CMP_GE, BGE);
    (Z.lor CCMASK_CMP_GE CCMASK_CMP_UO, BGEU) ].

Definition nativeCodes : list Z := map fst nativeBranches.

(** The codes that are not native: the GT/LE forms and ANY. *)
Definition syntheticCodes : list Z :=
  [ CCMASK_CMP_GT; CCMASK_CMP_LE;
    Z.lor CCMASK_CMP_GT CCMASK_CMP_UO; Z.lor CCMASK_CMP_LE CCMASK_CMP_UO;
    CCMASK_ANY ].

(** What the declarations of the masks guarantee: they are values of
    type [unsigned]; the ten codes are the case labels of one [switch],
    hence pairwise different; and ANY is none of them. *)
Record CondCodeMasks_ok : Prop := {
  masks_unsigned :
    Forall (fun c => 0 <= c < 2 ^ 32)
      [ CCMASK_CMP_EQ; CCMASK_CMP_NE; CCMASK_CMP_LT; CCMASK_CMP_GE;
        CCMASK_CMP_GT; CCMASK_CMP_LE; CCMASK_CMP_UO; CCMASK_ANY ];
  masks_distinct : NoDup validCodes;
  masks_any : ~ In CCMASK_ANY validCodes
}.

Definition isCondBranchOpcode (Op : Opcode) : bool :=
  match Op with
  | BEQ | BNE | BLT | BLTU | BGE | BGEU | BGT | BGTU | BLE | BLEU => true
  | _ => false
  end.

Definition isJumpOpcode (Op : Opcode) : bool :=
  match Op with
  | J | JAL | JALR => true
  | _ => false
  end.

(** A conditional branch on two operands to block [Dest]. *)
Definition condBranchTo (MI : MachineInstr) (Dest : MBBRef) : Prop :=
  isCondBranchOpcode (getOpcode MI) = true /\
  exists a b, Operands MI = [a; b; MO_MachineBasicBlock Dest].

(** An unconditional jump to block [Dest]. *)
Definition jumpTo (MI : MachineInstr) (Dest : MBBRef) : Prop :=
  isJumpOpcode (getOpcode MI) = true /\
  exists rest, Operands MI = MO_MachineBasicBlock Dest :: rest.

(** A terminator [AnalyzeBranch] gives up on: not a branch, or a branch
    whose target is not a block. *)
Definition opaqueTerminator (MI : MachineInstr) : Prop :=
  isBranch MI = Ok None \/
  exists c t, isBranch MI = Ok (Some (c, t)) /\ isMBB t = false.

(** The block has no terminator at its end: going up from the end and
    skipping debug values, the first instruction met, if any, is not a
    terminator. *)
Inductive NoTrailingTerminator : list MachineInstr -> Prop :=
| NTT_begin : NoTrailingTerminator []
| NTT_debug l MI :
    isDebugValue MI = true ->
    NoTrailingTerminator l ->
    NoTrailingTerminator (l ++ [MI])
| NTT_stop l MI :
    isDebugValue MI = false ->
    isUnpredicatedTerminator MI = false ->
    NoTrailingTerminator (l ++ [MI]).

(** An instruction of a trailing terminator run. *)
Inductive RunInstr (MI : MachineInstr) : Prop :=
| Run_debug : isDebugValue MI = true -> RunInstr MI
| Run_opaque :
    isDebugValue MI = false -> isUnpredicatedTerminator MI = true ->
    opaqueTerminator MI -> RunInstr MI
| Run_cond Dest :
    isUnpredicatedTerminator MI = true -> condBranchTo MI Dest -> RunInstr MI
| Run_jump Dest :
    isUnpredicatedTerminator MI = true -> jumpTo MI Dest -> RunInstr MI.

(** The same, unconditional jumps to a block excluded. *)
Definition RunInstrNoJump (MI : MachineInstr) : Prop :=
  RunInstr MI /\ forall Dest, ~ jumpTo MI Dest.

(** A branch [RemoveBranch] erases: one [isBranch] knows, with a block
    as its target. *)
Definition isBlockBranch (MI : MachineInstr) : bool :=
  negb (isDebugValue MI) &&
  match isBranch MI with
  | Ok (Some (_, Target)) => isMBB Target
  | _ => false
  end.

(** One pass over the instructions of a block, last instruction first:
    branches to a block are dropped and counted and debug values are
    kept, up to the first instruction that is neither.  The result is the
    count and the instructions left, last instruction first. *)
Fixpoint stripBranches (r : list MachineInstr)
    : Result (nat * list MachineInstr) :=
  match r with
  | [] => Ok (O, [])
  | MI :: r' =>
    if isDebugValue MI then
      p <- stripBranches r' ;; Ok (fst p, MI :: snd p)
    else
      match isBranch MI with
      | Abort e => Abort e
      | Ok None => Ok (O, r)
      | Ok (Some (_, Target)) =>
        if negb (isMBB Target) then Ok (O, r)
        else p <- stripBranches r' ;; Ok (S (fst p), snd p)
      end
  end.

(** The shapes of what [AnalyzeBranch] hands back: either no condition
    and no false target, or a true target together with a condition that
    starts with one of the ten codes. *)
Definition branchShape (TBB FBB : option MBBRef) (Cond : list MachineOperand)
    : Prop :=
  (Cond = [] /\ FBB = None) \/
  (exists T c ops,
      TBB = Some T /\ Cond = MO_Immediate c :: ops /\
      In c validCodes /\ c <> CCMASK_ANY).

(** Each native code with the opcode of the opposite branch. *)
Definition reversedBranches : list (Z * Opcode) :=
  [ (CCMASK_CMP_EQ, BNE); (CCMASK_CMP_NE, BEQ); (CCMASK_CMP_LT, BGE);
    (Z.lor CCMASK_CMP_LT CCMASK_CMP_UO, BGEU); (CCMASK_CMP_GE, BLT);
    (Z.lor CCMASK_CMP_GE CCMASK_CMP_UO, BLTU) ].

(** The four branches [isBranch] knows and [InsertBranch] does not
    build, each with its code. *)
Definition syntheticBranches : list (Z * Opcode) :=
  [ (CCMASK_CMP_GT, BGT); (Z.lor CCMASK_CMP_GT CCMASK_CMP_UO, BGTU);
    (CCMASK_CMP_LE, BLE); (Z.lor CCMASK_CMP_LE CCMASK_CMP_UO, BLEU) ].

End Vocabulary.

(** * Properties *)

Section Properties.

Context {masks : CondCodeMasks} {TI : TargetInfo}.

(** ** The masks *)

Lemma NoDup_cons_inv (A : Type) (a : A) (l : list A) :
  NoDup (a :: l) -> ~ In a l /\ NoDup l.
Proof. intros H. inversion H; subst. split; assumption. Qed.

(** Puts the pairwise disequalities of the ten codes and of ANY in the
    context. *)
Ltac code_facts Hok :=
  let Hd := fresh "Hd" in
  let Ha := fresh "Ha" in
  pose proof (masks_distinct Hok) as Hd;
  pose proof (masks_any Hok) as Ha;
  unfold validCodes in Hd, Ha;
  repeat (apply NoDup_cons_inv in Hd;
          let Hn := fresh "Hn" in destruct Hd as [Hn Hd]);
  clear Hd;
  cbn [In] in *;
  repeat match goal with
  | H : ~ (_ \/ _) |- _ =>
      let H1 := fresh "Hne" in
      apply Decidable.not_or in H; destruct H as [H1 H]
  | H : ~ False |- _ => clear H
  end.

(** Decides the comparisons of a [switch] over the codes. *)
Ltac switch_codes :=
  repeat match goal with
  | |- context [Z.eqb ?a ?b] =>
      destruct (Z.eqb_spec a b);
      try (exfalso; congruence)
  end.

Lemma lor_unsigned (a b : Z) :
  0 <= a < 2 ^ 32 -> 0 <= b < 2 ^ 32 -> 0 <= Z.lor a b < 2 ^ 32.
Proof.
  intros Ha Hb.
  assert (Hn : 0 <= Z.lor a b) by (apply Z.lor_nonneg; lia).
  split; [exact Hn|].
  destruct (Z.eq_dec (Z.lor a b) 0) as [E|E]; [rewrite E; lia|].
  apply Z.log2_lt_pow2; [lia|].
  rewrite Z.log2_lor by lia.
  destruct (Z.eq_dec a 0) as [Ea|Ea]; destruct (Z.eq_dec b 0) as [Eb|Eb]; subst;
    try (cbn in E; congruence).
  - rewrite Z.max_r by (cbn; apply Z.log2_nonneg). apply Z.log2_lt_pow2; lia.
  - rewrite Z.max_l by (cbn; apply Z.log2_nonneg). apply Z.log2_lt_pow2; lia.
  - apply Z.max_lub_lt; apply Z.log2_lt_pow2; lia.
Qed.

Lemma validCodes_unsigned (Hok : CondCodeMasks_ok) (c : Z) :
  In c validCodes \/ c = CCMASK_ANY -> to_unsigned c = c.
Proof.
  intros Hc. unfold to_unsigned. apply Z.mod_small.
  pose proof (masks_unsigned Hok) as Hu.
  repeat match goal with
  | H : Forall _ (_ :: _) |- _ =>
      let H1 := fresh "Hr" in
      let H2 := fresh "Hf" in
      apply Forall_cons_iff in H; destruct H as [H1 H2]
  end.
  unfold validCodes in Hc. cbn [In] in Hc.
  repeat (destruct Hc as [Hc|Hc]); subst;
    try contradiction; try assumption; try (apply lor_unsigned; assumption).
Qed.

(** ** ReverseBranchCondition *)

Lemma ReverseBranchCondition_pair (Hok : CondCodeMasks_ok) (c c' : Z)
    (ops : list MachineOperand) :
  In (c, c') invertPairs -> (length ops <= 3)%nat ->
  ReverseBranchCondition (MO_Immediate c :: ops)
  = Ok (false, MO_Immediate c' :: ops).
Proof.
  intros Hin Hlen.
  unfold ReverseBranchCondition.
  replace (length (MO_Immediate c :: ops) <=? 4)%nat with true
    by (symmetry; apply Nat.leb_le; cbn; lia).
  cbn [assert bind at_ nth_error getImm].
  code_facts Hok.
  unfold invertPairs in Hin. cbn [In] in Hin.
  repeat (destruct Hin as [Hin|Hin]); try contradiction;
    inversion Hin; subst; clear Hin;
    switch_codes; reflexivity.
Qed.

Lemma invertPairs_valid (c : Z) :
  In c validCodes -> exists c', In (c, c') invertPairs /\ In (c', c) invertPairs.
Proof.
  unfold validCodes, invertPairs. cbn [In].
  intros H.
  repeat (destruct H as [H|H]); try contradiction; subst;
    eexists; split; eauto 12.
Qed.

(** C4.  [ReverseBranchCondition] maps each of the ten codes to its
    partner in the pairing EQ/NE, LT/GE, LT|U/GE|U, GT/LE, GT|U/LE|U and
    leaves the operand components of the tuple as they are; applied twice
    it gives the tuple back; on the ANY code it is fatal with
    InvalidCondition. *)
Theorem ReverseBranchCondition_involution (Hok : CondCodeMasks_ok) :
  (forall c c' ops,
      In (c, c') invertPairs -> (length ops <= 3)%nat ->
      ReverseBranchCondition (MO_Immediate c :: ops)
      = Ok (false, MO_Immediate c' :: ops)) /\
  (forall c ops,
      In c validCodes -> (length ops <= 3)%nat ->
      exists Cond',
        ReverseBranchCondition (MO_Immediate c :: ops) = Ok (false, Cond') /\
        ReverseBranchCondition Cond' = Ok (false, MO_Immediate c :: ops)) /\
  (forall ops,
      ReverseBranchCondition (MO_Immediate CCMASK_ANY :: ops)
      = Abort InvalidCondition).
Proof.
  split; [|split].
  - intros c c' ops. apply ReverseBranchCondition_pair; assumption.
  - intros c ops Hc Hlen.
    destruct (invertPairs_valid c Hc) as [c' [H1 H2]].
    exists (MO_Immediate c' :: ops). split.
    + apply ReverseBranchCondition_pair; assumption.
    + apply ReverseBranchCondition_pair; assumption.
  - intros ops. unfold ReverseBranchCondition.
    destruct (length (MO_Immediate CCMASK_ANY :: ops) <=? 4)%nat;
      cbn [assert bind at_ nth_error getImm]; [|reflexivity].
    code_facts Hok.
    switch_codes; reflexivity.
Qed.

(** ** InsertBranch *)

Lemma nativeCodes_not_synthetic (Hok : CondCodeMasks_ok) (c : Z) :
  In c syntheticCodes -> to_unsigned c = c /\ ~ In c nativeCodes.
Proof.
  intros Hc. split.
  - apply (validCodes_unsigned Hok).
    unfold syntheticCodes in Hc. unfold validCodes. cbn [In] in *.
    repeat (destruct Hc as [Hc|Hc]); try contradiction; subst; auto 15.
  - code_facts Hok.
    unfold syntheticCodes in Hc. unfold nativeCodes, nativeBranches.
    cbn [In map fst] in *.
    intros Hn.
    repeat (destruct Hc as [Hc|Hc]); try contradiction; subst;
      repeat (destruct Hn as [Hn|Hn]); try contradiction; congruence.
Qed.

Lemma InsertBranch_native (Hok : CondCodeMasks_ok) (MBB : MachineBasicBlock)
    (T : MBBRef) (FBB : option MBBRef) (c : Z) (Opc : Opcode)
    (r1 r2 : Z) (d1 d2 : bool) (rest : list MachineOperand) :
  In (c, Opc) nativeBranches -> (length rest <= 1)%nat ->
  InsertBranch MBB (Some T) FBB
    (MO_Immediate c :: MO_Register r1 d1 :: MO_Register r2 d2 :: rest)
  = match FBB with
    | None =>
        Ok (1, mkMBB (Insts MBB ++
                        [mkMI Opc [MO_Register r1 false; MO_Register r2 false;
                                   MO_MachineBasicBlock T]])
                     (LayoutSuccessor MBB))
    | Some _ => Abort InvalidBranchShape
    end.
Proof.
  intros Hin Hlen.
  unfold InsertBranch.
  replace (length (MO_Immediate c :: MO_Register r1 d1 :: MO_Register r2 d2 :: rest)
             <=? 4)%nat with true
    by (symmetry; apply Nat.leb_le; cbn; lia).
  cbn [assert bind getImm].
  assert (Hu : to_unsigned c = c).
  { apply (validCodes_unsigned Hok). left.
    unfold nativeBranches in Hin. unfold validCodes. cbn [In] in *.
    repeat (destruct Hin as [Hin|Hin]); try contradiction;
      inversion Hin; subst; auto 15. }
  rewrite Hu.
  code_facts Hok.
  unfold nativeBranches in Hin. cbn [In] in Hin.
  repeat (destruct Hin as [Hin|Hin]); try contradiction;
    inversion Hin; subst; clear Hin;
    switch_codes; destruct FBB; reflexivity.
Qed.

Lemma InsertBranch_not_native (MBB : MachineBasicBlock) (T : MBBRef)
    (FBB : option MBBRef) (c : Z) (rest : list MachineOperand) :
  ~ In (to_unsigned c) nativeCodes -> (length rest <= 3)%nat ->
  InsertBranch MBB (Some T) FBB (MO_Immediate c :: rest)
  = Abort InvalidConditionForInsert.
Proof.
  intros Hn Hlen.
  unfold InsertBranch.
  replace (length (MO_Immediate c :: rest) <=? 4)%nat with true
    by (symmetry; apply Nat.leb_le; cbn; lia).
  cbn [assert bind getImm].
  unfold nativeCodes, nativeBranches in Hn. cbn [In map fst] in Hn.
  repeat match goal with
  | |- context [Z.eqb ?a ?b] =>
      destruct (Z.eqb_spec a b); [exfalso; apply Hn; intuition congruence|]
  end.
  reflexivity.
Qed.

(** C5 (amended).  With the true target set: an empty tuple appends one
    unconditional jump to it and returns 1, and is fatal with
    InvalidBranchShape when a false target is given; a tuple with one of
    the six native codes and two registers appends the one conditional
    branch of that code and returns 1, and is fatal with
    InvalidBranchShape when a false target is given; a tuple with any other
    code, such as the GT/LE forms, is fatal with
    InvalidConditionForInsert, whether a false target is given or not. *)
Theorem InsertBranch_shape (Hok : CondCodeMasks_ok) (MBB : MachineBasicBlock)
    (T : MBBRef) :
  InsertBranch MBB (Some T) None []
  = Ok (1, mkMBB (Insts MBB ++ [mkMI J [MO_MachineBasicBlock T]])
                 (LayoutSuccessor MBB)) /\
  (forall F, InsertBranch MBB (Some T) (Some F) [] = Abort InvalidBranchShape) /\
  (forall c Opc r1 d1 r2 d2 rest,
      In (c, Opc) nativeBranches -> (length rest <= 1)%nat ->
      InsertBranch MBB (Some T) None
        (MO_Immediate c :: MO_Register r1 d1 :: MO_Register r2 d2 :: rest)
      = Ok (1, mkMBB (Insts MBB ++
                        [mkMI Opc [MO_Register r1 false; MO_Register r2 false;
                                   MO_MachineBasicBlock T]])
                     (LayoutSuccessor MBB)) /\
      forall F,
        InsertBranch MBB (Some T) (Some F)
          (MO_Immediate c :: MO_Register r1 d1 :: MO_Register r2 d2 :: rest)
        = Abort InvalidBranchShape) /\
  (forall c rest FBB,
      In c syntheticCodes \/ ~ In (to_unsigned c) nativeCodes ->
      (length rest <= 3)%nat ->
      InsertBranch MBB (Some T) FBB (MO_Immediate c :: rest)
      = Abort InvalidConditionForInsert).
Proof.
  split; [reflexivity|]. split; [reflexivity|]. split.
  - intros c Opc r1 d1 r2 d2 rest Hin Hlen. split.
    + apply (InsertBranch_native Hok MBB T None c Opc); assumption.
    + intros F. apply (InsertBranch_native Hok MBB T (Some F) c Opc); assumption.
  - intros c rest FBB Hc Hlen.
    apply InsertBranch_not_native; [|assumption].
    destruct Hc as [Hc|Hc]; [|assumption].
    destruct (nativeCodes_not_synthetic Hok c Hc) as [Hu Hn].
    rewrite Hu. assumption.
Qed.

(** ** AnalyzeBranch: one iteration of the loop *)

Lemma nth_error_middle (A : Type) (l t : list A) (x : A) :
  nth_error (l ++ x :: t) (length l) = Some x.
Proof.
  rewrite nth_error_app2 by lia. rewrite Nat.sub_diag. reflexivity.
Qed.

Lemma firstn_middle (A : Type) (l t : list A) (x : A) :
  firstn (S (length l)) (l ++ x :: t) = l ++ [x].
Proof.
  rewrite firstn_app. rewrite firstn_all2 by lia.
  replace (S (length l) - length l)%nat with 1%nat by lia. reflexivity.
Qed.

Lemma eraseAfter_middle (l t : list MachineInstr) (MI : MachineInstr)
    (Succ : option MBBRef) :
  eraseAfter (mkMBB (l ++ MI :: t) Succ) (length l) = mkMBB (l ++ [MI]) Succ.
Proof.
  unfold eraseAfter. cbn [Insts LayoutSuccessor]. rewrite firstn_middle. reflexivity.
Qed.

Lemma eraseFromParent_last (l : list MachineInstr) (MI : MachineInstr)
    (Succ : option MBBRef) :
  eraseFromParent (mkMBB (l ++ [MI]) Succ) (length l) = mkMBB (l ++ []) Succ.
Proof.
  unfold eraseFromParent. cbn [Insts LayoutSuccessor].
  rewrite firstn_app, firstn_all, Nat.sub_diag. cbn [firstn].
  rewrite skipn_all2 by (rewrite length_app; cbn; lia).
  rewrite app_nil_r. reflexivity.
Qed.

(** The iteration that examines a branch with a block target. *)
Lemma loop_branch (fuel : nat) (AM : bool) (l t : list MachineInstr)
    (MI : MachineInstr) (Succ : option MBBRef) (TBB FBB : option MBBRef)
    (Cond : list MachineOperand) (c : Z) (Dest : MBBRef) :
  isDebugValue MI = false ->
  isUnpredicatedTerminator MI = true ->
  isBranch MI = Ok (Some (c, MO_MachineBasicBlock Dest)) ->
  AnalyzeBranch_loop (S fuel) AM (mkMBB (l ++ MI :: t) Succ) (S (length l))
    TBB FBB Cond
  = if c =? CCMASK_ANY then
      if negb AM then
        AnalyzeBranch_loop fuel AM (mkMBB (l ++ MI :: t) Succ) (length l)
          (Some Dest) FBB Cond
      else if isLayoutSuccessor (mkMBB (l ++ [MI]) Succ) Dest then
        AnalyzeBranch_loop fuel AM (mkMBB (l ++ []) Succ) (length l)
          None None []
      else
        AnalyzeBranch_loop fuel AM (mkMBB (l ++ [MI]) Succ) (length l)
          (Some Dest) None []
    else
      match Cond with
      | [] =>
        AnalyzeBranch_loop fuel AM (mkMBB (l ++ MI :: t) Succ) (length l)
          (Some Dest) TBB (MO_Immediate c :: Operands MI)
      | C0 :: _ =>
        if negb (length Cond <=? 4)%nat then Some (Abort TooManyComponents)
        else
          match TBB with
          | None => Some (Abort MissingTrueTarget)
          | Some T =>
            if negb (T =? Dest)%nat then
              Some (Ok (true, mkBranchState (mkMBB (l ++ MI :: t) Succ) TBB FBB Cond))
            else
              match getImm C0 with
              | Abort e => Some (Abort e)
              | Ok _ =>
                AnalyzeBranch_loop fuel AM (mkMBB (l ++ MI :: t) Succ) (length l)
                  TBB FBB Cond
              end
          end
      end.
Proof.
  intros Hd Ht Hb.
  cbn [AnalyzeBranch_loop Nat.eqb Nat.sub Insts].
  rewrite Nat.sub_0_r, nth_error_middle, Hd, Ht, Hb.
  cbn [negb].
  rewrite eraseAfter_middle, eraseFromParent_last.
  cbn [Insts]. rewrite app_nil_r.
  unfold getNumExplicitOperands, CreateImm. rewrite firstn_all.
  destruct (c =? CCMASK_ANY); [reflexivity|].
  destruct Cond as [|C0 Cond']; [reflexivity|].
  destruct (negb (length (C0 :: Cond') <=? 4)%nat); [reflexivity|].
  destruct TBB as [T|]; [|reflexivity].
  destruct (negb (T =? Dest)%nat); [reflexivity|].
  destruct (getImm C0); [|reflexivity].
  destruct (to_unsigned a =? c); reflexivity.
Qed.

Lemma loop_debug (fuel : nat) (AM : bool) (l t : list MachineInstr)
    (MI : MachineInstr) (Succ : option MBBRef) (TBB FBB : option MBBRef)
    (Cond : list MachineOperand) :
  isDebugValue MI = true ->
  AnalyzeBranch_loop (S fuel) AM (mkMBB (l ++ MI :: t) Succ) (S (length l))
    TBB FBB Cond
  = AnalyzeBranch_loop fuel AM (mkMBB (l ++ MI :: t) Succ) (length l)
      TBB FBB Cond.
Proof.
  intros Hd.
  cbn [AnalyzeBranch_loop Nat.eqb Nat.sub Insts].
  rewrite Nat.sub_0_r, nth_error_middle, Hd. reflexivity.
Qed.

Lemma loop_stop (fuel : nat) (AM : bool) (l t : list MachineInstr)
    (MI : MachineInstr) (Succ : option MBBRef) (TBB FBB : option MBBRef)
    (Cond : list MachineOperand) :
  isDebugValue MI = false ->
  isUnpredicatedTerminator MI = false ->
  AnalyzeBranch_loop (S fuel) AM (mkMBB (l ++ MI :: t) Succ) (S (length l))
    TBB FBB Cond
  = Some (Ok (false, mkBranchState (mkMBB (l ++ MI :: t) Succ) TBB FBB Cond)).
Proof.
  intros Hd Ht.
  cbn [AnalyzeBranch_loop Nat.eqb Nat.sub Insts].
  rewrite Nat.sub_0_r, nth_error_middle, Hd, Ht. reflexivity.
Qed.

Lemma loop_opaque (fuel : nat) (AM : bool) (l t : list MachineInstr)
    (MI : MachineInstr) (Succ : option MBBRef) (TBB FBB : option MBBRef)
    (Cond : list MachineOperand) :
  isDebugValue MI = false ->
  isUnpredicatedTerminator MI = true ->
  opaqueTerminator MI ->
  AnalyzeBranch_loop (S fuel) AM (mkMBB (l ++ MI :: t) Succ) (S (length l))
    TBB FBB Cond
  = Some (Ok (true, mkBranchState (mkMBB (l ++ MI :: t) Succ) TBB FBB Cond)).
Proof.
  intros Hd Ht Ho.
  cbn [AnalyzeBranch_loop Nat.eqb Nat.sub Insts].
  rewrite Nat.sub_0_r, nth_error_middle, Hd, Ht. cbn [negb].
  destruct Ho as [Hb|[c [tgt [Hb Hm]]]]; rewrite Hb; [reflexivity|].
  destruct tgt; try reflexivity. discriminate Hm.
Qed.

Lemma loop_begin (fuel : nat) (AM : bool) (MBB : MachineBasicBlock)
    (TBB FBB : option MBBRef) (Cond : list MachineOperand) :
  AnalyzeBranch_loop (S fuel) AM MBB 0 TBB FBB Cond
  = Some (Ok (false, mkBranchState MBB TBB FBB Cond)).
Proof. reflexivity. Qed.

(** ** AnalyzeBranch: what [isBranch] says of jumps and branches *)

Lemma jumpTo_isBranch (MI : MachineInstr) (Dest : MBBRef) :
  jumpTo MI Dest ->
  isDebugValue MI = false /\
  isBranch MI = Ok (Some (CCMASK_ANY, MO_MachineBasicBlock Dest)).
Proof.
  intros [Hop [rest Hops]].
  unfold isDebugValue, isBranch, getOperand.
  destruct (getOpcode MI); try discriminate Hop;
    rewrite Hops; split; reflexivity.
Qed.

Lemma condBranchTo_isBranch (MI : MachineInstr) (Dest : MBBRef) :
  condBranchTo MI Dest ->
  isDebugValue MI = false /\
  (length (Operands MI) = 3)%nat /\
  exists c, In c validCodes /\
            isBranch MI = Ok (Some (c, MO_MachineBasicBlock Dest)).
Proof.
  intros [Hop [a [b Hops]]].
  unfold isDebugValue, isBranch, getOperand, validCodes.
  destruct (getOpcode MI); try discriminate Hop;
    rewrite Hops; (split; [reflexivity|]); (split; [reflexivity|]);
    eexists; (split; [|reflexivity]); cbn [In]; auto 15.
Qed.

Lemma validCodes_not_any (Hok : CondCodeMasks_ok) (c : Z) :
  In c validCodes -> (c =? CCMASK_ANY) = false.
Proof.
  intros Hc. apply Z.eqb_neq. intros E. subst.
  exact (masks_any Hok Hc).
Qed.

(** ** AnalyzeBranch: termination *)

Lemma eraseFromParent_eraseAfter_length (MBB : MachineBasicBlock) (I : nat) :
  (length (Insts (eraseFromParent (eraseAfter MBB I) I)) <= I)%nat.
Proof.
  unfold eraseFromParent, eraseAfter. cbn [Insts].
  rewrite length_app, length_firstn, length_skipn, length_firstn. lia.
Qed.

Lemma AnalyzeBranch_loop_fuel (fuel : nat) :
  forall (AM : bool) (MBB : MachineBasicBlock) (I : nat)
         (TBB FBB : option MBBRef) (Cond : list MachineOperand),
    (I < fuel)%nat ->
    AnalyzeBranch_loop fuel AM MBB I TBB FBB Cond <> None.
Proof.
  induction fuel as [|fuel IH]; intros AM MBB I TBB FBB Cond Hlt; [lia|].
  cbn [AnalyzeBranch_loop].
  destruct (I =? 0)%nat eqn:HI; [discriminate|].
  apply Nat.eqb_neq in HI.
  pose proof (eraseFromParent_eraseAfter_length MBB (I - 1)) as Hlen.
  repeat match goal with
  | |- (if ?c then _ else _) <> None => destruct c
  | |- match ?x with _ => _ end <> None => destruct x
  end; try discriminate; apply IH; lia.
Qed.

(** The loop always comes to an end within the fuel [AnalyzeBranch]
    gives it. *)
Lemma AnalyzeBranch_terminates (MBB : MachineBasicBlock)
    (TBB FBB : option MBBRef) (Cond : list MachineOperand) (AM : bool) :
  AnalyzeBranch MBB TBB FBB Cond AM <> None.
Proof.
  unfold AnalyzeBranch. apply AnalyzeBranch_loop_fuel. lia.
Qed.

(** ** AnalyzeBranch without modification *)

Lemma AnalyzeBranch_loop_frame (fuel : nat) :
  forall (MBB : MachineBasicBlock) (I : nat) (TBB FBB : option MBBRef)
         (Cond : list MachineOperand) (r : bool) (st : BranchState),
    AnalyzeBranch_loop fuel false MBB I TBB FBB Cond = Some (Ok (r, st)) ->
    stMBB st = MBB.
Proof.
  induction fuel as [|fuel IH]; intros MBB I TBB FBB Cond r st H;
    [discriminate|].
  cbn [AnalyzeBranch_loop negb] in H.
  repeat match type of H with
  | (if ?c then _ else _) = _ => destruct c
  | match ?x with _ => _ end = _ => destruct x
  end;
  try discriminate;
  try (inversion H; subst; reflexivity);
  apply IH in H; exact H.
Qed.

(** C10.  With [AllowModify] false, [AnalyzeBranch] comes to an end and,
    whatever it returns, the block is the one it was given: no
    instruction is erased, inserted or changed. *)
Theorem AnalyzeBranch_no_modify_frame (MBB : MachineBasicBlock)
    (TBB FBB : option MBBRef) (Cond : list MachineOperand) :
  match AnalyzeBranch MBB TBB FBB Cond false with
  | Some (Ok (_, st)) => stMBB st = MBB
  | Some (Abort _) => True
  | None => False
  end.
Proof.
  destruct (AnalyzeBranch MBB TBB FBB Cond false) as [[[r st]|e]|] eqn:H.
  - unfold AnalyzeBranch in H. apply AnalyzeBranch_loop_frame in H. exact H.
  - exact I.
  - exact (AnalyzeBranch_terminates _ _ _ _ _ H).
Qed.

(** ** AnalyzeBranch: the scan above the terminators *)

Lemma loop_no_terminator (pre : list MachineInstr) :
  NoTrailingTerminator pre ->
  forall (fuel : nat) (AM : bool) (t : list MachineInstr)
         (Succ TBB FBB : option MBBRef) (Cond : list MachineOperand),
    (length pre < fuel)%nat ->
    AnalyzeBranch_loop fuel AM (mkMBB (pre ++ t) Succ) (length pre) TBB FBB Cond
    = Some (Ok (false, mkBranchState (mkMBB (pre ++ t) Succ) TBB FBB Cond)).
Proof.
  induction 1 as [|l MI Hd Hl IH|l MI Hd Ht];
    intros fuel AM t Succ TBB FBB Cond Hf.
  - destruct fuel; [lia|]. apply loop_begin.
  - rewrite length_app in *. cbn [length] in *.
    destruct fuel; [lia|].
    rewrite <- app_assoc. cbn [app].
    rewrite Nat.add_1_r.
    rewrite loop_debug by assumption.
    apply IH. lia.
  - rewrite length_app in *. cbn [length] in *.
    destruct fuel; [lia|].
    rewrite <- app_assoc. cbn [app].
    rewrite Nat.add_1_r.
    apply loop_stop; assumption.
Qed.

Lemma loop_debug_suffix (dbg : list MachineInstr) :
  Forall (fun MI => isDebugValue MI = true) dbg ->
  forall (fuel : nat) (AM : bool) (l t : list MachineInstr)
         (Succ TBB FBB : option MBBRef) (Cond : list MachineOperand),
    AnalyzeBranch_loop (length dbg + fuel) AM (mkMBB ((l ++ dbg) ++ t) Succ)
      (length (l ++ dbg)) TBB FBB Cond
    = AnalyzeBranch_loop fuel AM (mkMBB ((l ++ dbg) ++ t) Succ)
        (length l) TBB FBB Cond.
Proof.
  induction dbg as [|MI dbg IH] using rev_ind;
    intros Hall fuel AM l t Succ TBB FBB Cond.
  - rewrite app_nil_r. reflexivity.
  - apply Forall_app in Hall. destruct Hall as [Hall HMI].
    inversion HMI as [|? ? Hd _]; subst.
    rewrite !length_app. cbn [length].
    replace (length dbg + 1 + fuel)%nat with (S (length dbg + fuel)) by lia.
    replace (length l + (length dbg + 1))%nat with (S (length (l ++ dbg)))
      by (rewrite length_app; lia).
    replace ((l ++ dbg ++ [MI]) ++ t) with ((l ++ dbg) ++ MI :: t)
      by (rewrite <- !app_assoc; reflexivity).
    rewrite loop_debug by assumption.
    replace ((l ++ dbg) ++ MI :: t) with ((l ++ dbg) ++ ([MI] ++ t))
      by reflexivity.
    exact (IH Hall fuel AM l ([MI] ++ t) Succ TBB FBB Cond).
Qed.

(** C6.  A block whose trailing terminator run is one unconditional jump
    to the layout successor of the block (debug values may follow the
    jump): with modification allowed, [AnalyzeBranch] erases the jump
    (and what follows it), returns false, and leaves both targets unset
    and the condition empty. *)
Theorem AnalyzeBranch_fallthrough (pre dbg : list MachineInstr)
    (Jmp : MachineInstr) (Next : MBBRef) (TBB FBB : option MBBRef)
    (Cond : list MachineOperand) :
  NoTrailingTerminator pre ->
  jumpTo Jmp Next ->
  isUnpredicatedTerminator Jmp = true ->
  Forall (fun MI => isDebugValue MI = true) dbg ->
  AnalyzeBranch (mkMBB (pre ++ Jmp :: dbg) (Some Next)) TBB FBB Cond true
  = Some (Ok (false, mkBranchState (mkMBB pre (Some Next)) None None [])).
Proof.
  intros Hpre Hj Ht Hdbg.
  destruct (jumpTo_isBranch Jmp Next Hj) as [Hd Hb].
  unfold AnalyzeBranch. cbn [Insts].
  replace (pre ++ Jmp :: dbg) with (((pre ++ [Jmp]) ++ dbg) ++ [])
    by (rewrite app_nil_r, <- app_assoc; reflexivity).
  replace (length (((pre ++ [Jmp]) ++ dbg) ++ []))
    with (length ((pre ++ [Jmp]) ++ dbg)) by (rewrite app_nil_r; reflexivity).
  replace (S (length ((pre ++ [Jmp]) ++ dbg)))
    with (length dbg + S (S (length pre)))%nat
    by (rewrite !length_app; cbn [length]; lia).
  rewrite loop_debug_suffix by assumption.
  replace (length (pre ++ [Jmp])) with (S (length pre))
    by (rewrite length_app; cbn [length]; lia).
  replace (((pre ++ [Jmp]) ++ dbg) ++ []) with (pre ++ Jmp :: dbg)
    by (rewrite app_nil_r, <- app_assoc; reflexivity).
  rewrite (loop_branch _ _ _ _ _ _ _ _ _ _ _ Hd Ht Hb).
  rewrite Z.eqb_refl. cbn [negb].
  unfold isLayoutSuccessor. cbn [LayoutSuccessor]. rewrite Nat.eqb_refl.
  rewrite (loop_no_terminator pre Hpre) by lia.
  rewrite app_nil_r. reflexivity.
Qed.

(** ** AnalyzeBranch on a conditional branch followed by a jump *)

(** C7 (amended).  A block that ends with a branch-less-than on [r1], [r2]
    to [L1] followed by a jump to [L2], with no terminator above the two:
    without modification [AnalyzeBranch] returns false with the true
    target [L1], the false target [L2] and the tuple made of the LT code
    and the operands of the branch, and leaves the block as it was. *)
Theorem AnalyzeBranch_blt_jump (Hok : CondCodeMasks_ok)
    (pre : list MachineInstr) (r1 r2 : Z) (d1 d2 : bool) (L1 L2 : MBBRef)
    (Succ TBB FBB : option MBBRef) :
  NoTrailingTerminator pre ->
  isUnpredicatedTerminator
    (mkMI BLT [MO_Register r1 d1; MO_Register r2 d2; MO_MachineBasicBlock L1])
  = true ->
  isUnpredicatedTerminator (mkMI J [MO_MachineBasicBlock L2]) = true ->
  AnalyzeBranch
    (mkMBB (pre ++ [mkMI BLT [MO_Register r1 d1; MO_Register r2 d2;
                              MO_MachineBasicBlock L1];
                    mkMI J [MO_MachineBasicBlock L2]]) Succ)
    TBB FBB [] false
  = Some (Ok (false,
       mkBranchState
         (mkMBB (pre ++ [mkMI BLT [MO_Register r1 d1; MO_Register r2 d2;
                                   MO_MachineBasicBlock L1];
                         mkMI J [MO_MachineBasicBlock L2]]) Succ)
         (Some L1) (Some L2)
         [MO_Immediate CCMASK_CMP_LT; MO_Register r1 d1; MO_Register r2 d2;
          MO_MachineBasicBlock L1])).
Proof.
  intros Hpre Hblt Hjmp.
  set (Blt := mkMI BLT [MO_Register r1 d1; MO_Register r2 d2;
                        MO_MachineBasicBlock L1]) in *.
  set (Jmp := mkMI J [MO_MachineBasicBlock L2]) in *.
  unfold AnalyzeBranch. cbn [Insts].
  replace (pre ++ [Blt; Jmp]) with ((pre ++ [Blt]) ++ [Jmp])
    by (rewrite <- app_assoc; reflexivity).
  replace (length ((pre ++ [Blt]) ++ [Jmp])) with (S (length (pre ++ [Blt])))
    by (rewrite !length_app; cbn [length]; lia).
  rewrite (loop_branch _ _ _ _ Jmp _ _ _ _ CCMASK_ANY L2)
    by (try reflexivity; assumption).
  rewrite Z.eqb_refl. cbn [negb].
  replace ((pre ++ [Blt]) ++ [Jmp]) with (pre ++ Blt :: [Jmp])
    by (rewrite <- app_assoc; reflexivity).
  replace (length (pre ++ [Blt])) with (S (length pre))
    by (rewrite length_app; cbn [length]; lia).
  rewrite (loop_branch _ _ _ _ Blt _ _ _ _ CCMASK_CMP_LT L1)
    by (try reflexivity; assumption).
  rewrite (validCodes_not_any Hok) by (unfold validCodes; cbn [In]; auto 15).
  rewrite (loop_no_terminator pre Hpre) by lia.
  reflexivity.
Qed.

(** ** InsertBranch followed by AnalyzeBranch *)

Lemma nativeBranches_isBranch (c : Z) (Opc : Opcode) (a b : MachineOperand)
    (T : MBBRef) :
  In (c, Opc) nativeBranches ->
  isDebugValue (mkMI Opc [a; b; MO_MachineBasicBlock T]) = false /\
  isCondBranchOpcode Opc = true /\
  In c validCodes /\
  isBranch (mkMI Opc [a; b; MO_MachineBasicBlock T])
  = Ok (Some (c, MO_MachineBasicBlock T)).
Proof.
  unfold nativeBranches, validCodes. cbn [In].
  intros H.
  repeat (destruct H as [H|H]); try contradiction;
    inversion H; subst; clear H;
    (split; [reflexivity|]); (split; [reflexivity|]);
    (split; [auto 15|reflexivity]).
Qed.

(** C1.  A tuple of one of the six native codes [c] and two registers,
    inserted with the single target [T] into an empty block, is read back
    by [AnalyzeBranch] (with or without modification): the block is
    analysable, the true target is [T], the false target is unset and
    the code of the recovered tuple is [c]. *)
Theorem InsertBranch_AnalyzeBranch_roundtrip (Hok : CondCodeMasks_ok)
    (c r1 r2 : Z) (d1 d2 : bool) (rest : list MachineOperand)
    (T : MBBRef) (Succ : option MBBRef) (AllowModify : bool) :
  (forall MI, isCondBranchOpcode (getOpcode MI) = true ->
              isUnpredicatedTerminator MI = true) ->
  In c nativeCodes ->
  (length rest <= 1)%nat ->
  exists MBB',
    InsertBranch (mkMBB [] Succ) (Some T) None
      (MO_Immediate c :: MO_Register r1 d1 :: MO_Register r2 d2 :: rest)
    = Ok (1, MBB') /\
    AnalyzeBranch MBB' None None [] AllowModify
    = Some (Ok (false,
         mkBranchState MBB' (Some T) None
           [MO_Immediate c; MO_Register r1 false; MO_Register r2 false;
            MO_MachineBasicBlock T])).
Proof.
  intros Hterm Hc Hlen.
  unfold nativeCodes in Hc. apply in_map_iff in Hc.
  destruct Hc as [[c0 Opc] [Hfst Hin]]. cbn [fst] in Hfst. subst c0.
  eexists. split.
  - apply (InsertBranch_native Hok _ T None c Opc); assumption.
  - cbn [Insts app].
    destruct (nativeBranches_isBranch c Opc (MO_Register r1 false)
                (MO_Register r2 false) T Hin) as [Hd [Hop [Hv Hb]]].
    unfold AnalyzeBranch. cbn [Insts length].
    change [mkMI Opc [MO_Register r1 false; MO_Register r2 false;
                      MO_MachineBasicBlock T]]
      with ([] ++ mkMI Opc [MO_Register r1 false; MO_Register r2 false;
                            MO_MachineBasicBlock T] :: []).
    change 1%nat with (S (@length MachineInstr [])).
    rewrite (loop_branch _ _ _ _ _ _ _ _ _ c T Hd
               (Hterm (mkMI Opc _) Hop) Hb).
    rewrite (validCodes_not_any Hok c Hv).
    reflexivity.
Qed.

(** ** AnalyzeBranch on conditional branches to different blocks *)

Lemma snoc_app (A : Type) (l t : list A) (x : A) :
  (l ++ [x]) ++ t = l ++ x :: t.
Proof. rewrite <- app_assoc. reflexivity. Qed.

Lemma length_snoc (A : Type) (l : list A) (x : A) :
  length (l ++ [x]) = S (length l).
Proof. rewrite length_app. cbn [length]. lia. Qed.

Section MixedDestinations.

Variables (AM : bool) (Succ : option MBBRef).
Variables (Hi Lo : MachineInstr) (Thi Tlo : MBBRef).
Hypothesis Hok : CondCodeMasks_ok.
Hypothesis Hi_term : isUnpredicatedTerminator Hi = true.
Hypothesis Hi_cond : condBranchTo Hi Thi.
Hypothesis Lo_term : isUnpredicatedTerminator Lo = true.
Hypothesis Lo_cond : condBranchTo Lo Tlo.
Hypothesis Hdiff : Thi <> Tlo.

(** The upper branch, met with the target of the lower one recorded. *)
Lemma loop_upper (fuel : nat) (pre t : list MachineInstr)
    (FBB : option MBBRef) (c : Z) (ops : list MachineOperand) :
  (length ops <= 3)%nat ->
  exists st,
    AnalyzeBranch_loop (S fuel) AM (mkMBB (pre ++ Hi :: t) Succ)
      (S (length pre)) (Some Tlo) FBB (MO_Immediate c :: ops)
    = Some (Ok (true, st)).
Proof.
  intros Hlen.
  destruct (condBranchTo_isBranch Hi Thi Hi_cond) as [Hd [_ [ch [Hv Hb]]]].
  rewrite (loop_branch _ _ _ _ _ _ _ _ _ ch Thi Hd Hi_term Hb).
  rewrite (validCodes_not_any Hok ch Hv).
  replace (length (MO_Immediate c :: ops) <=? 4)%nat with true
    by (symmetry; apply Nat.leb_le; cbn [length]; lia).
  cbn [negb].
  replace (Tlo =? Thi)%nat with false
    by (symmetry; apply Nat.eqb_neq; congruence).
  cbn [negb]. eexists. reflexivity.
Qed.

(** The instructions between the two branches. *)
Lemma loop_between (pre mid : list MachineInstr) :
  Forall RunInstrNoJump mid ->
  forall (fuel : nat) (t : list MachineInstr) (FBB : option MBBRef)
         (c : Z) (ops : list MachineOperand),
    (length ops <= 3)%nat ->
    (length ((pre ++ [Hi]) ++ mid) < fuel)%nat ->
    exists st,
      AnalyzeBranch_loop fuel AM (mkMBB (((pre ++ [Hi]) ++ mid) ++ t) Succ)
        (length ((pre ++ [Hi]) ++ mid)) (Some Tlo) FBB (MO_Immediate c :: ops)
      = Some (Ok (true, st)).
Proof.
  induction mid as [|MI mid IH] using rev_ind;
    intros Hall fuel t FBB c ops Hlen Hfuel.
  - rewrite app_nil_r in *. rewrite length_snoc in *. rewrite snoc_app.
    destruct fuel; [lia|].
    apply loop_upper; assumption.
  - apply Forall_app in Hall. destruct Hall as [Hall HMI].
    inversion HMI as [|? ? [Hrun Hnj] _]; subst.
    rewrite app_assoc in *. rewrite length_snoc in *. rewrite snoc_app.
    destruct fuel; [lia|].
    destruct Hrun as [Hd|Hd Ht Ho|Dest Ht Hc|Dest Ht Hj].
    + rewrite loop_debug by assumption.
      apply IH; [assumption|assumption|lia].
    + rewrite loop_opaque by assumption. eexists. reflexivity.
    + destruct (condBranchTo_isBranch MI Dest Hc) as [Hd [_ [cm [Hv Hb]]]].
      rewrite (loop_branch _ _ _ _ _ _ _ _ _ cm Dest Hd Ht Hb).
      rewrite (validCodes_not_any Hok cm Hv).
      replace (length (MO_Immediate c :: ops) <=? 4)%nat with true
        by (symmetry; apply Nat.leb_le; cbn [length]; lia).
      cbn [negb getImm].
      destruct (Tlo =? Dest)%nat; cbn [negb].
      * apply IH; [assumption|assumption|lia].
      * eexists. reflexivity.
    + exfalso. exact (Hnj Dest Hj).
Qed.

(** The lower branch and what follows it.  Either no condition has been
    recorded yet, or one has, of at most four components, together with
    a true target. *)
Lemma loop_below (pre mid post : list MachineInstr) :
  Forall RunInstrNoJump mid ->
  Forall RunInstr post ->
  forall (fuel : nat) (t : list MachineInstr) (TBB FBB : option MBBRef)
         (Cond : list MachineOperand),
    (Cond = [] \/
     exists c ops T,
       Cond = MO_Immediate c :: ops /\ (length ops <= 3)%nat /\ TBB = Some T) ->
    (length ((((pre ++ [Hi]) ++ mid) ++ [Lo]) ++ post) < fuel)%nat ->
    exists st,
      AnalyzeBranch_loop fuel AM
        (mkMBB (((((pre ++ [Hi]) ++ mid) ++ [Lo]) ++ post) ++ t) Succ)
        (length ((((pre ++ [Hi]) ++ mid) ++ [Lo]) ++ post)) TBB FBB Cond
      = Some (Ok (true, st)).
Proof.
  intros Hmid.
  induction post as [|MI post IH] using rev_ind;
    intros Hall fuel t TBB FBB Cond Hinv Hfuel.
  - rewrite app_nil_r in *. rewrite length_snoc in *. rewrite snoc_app.
    destruct fuel; [lia|].
    destruct (condBranchTo_isBranch Lo Tlo Lo_cond) as [Hd [Hn [cl [Hv Hb]]]].
    rewrite (loop_branch _ _ _ _ _ _ _ _ _ cl Tlo Hd Lo_term Hb).
    rewrite (validCodes_not_any Hok cl Hv).
    destruct Hinv as [E|[c [ops [T [E [Hlen ET]]]]]]; subst.
    + apply loop_between; [assumption|lia|lia].
    + replace (length (MO_Immediate c :: ops) <=? 4)%nat with true
        by (symmetry; apply Nat.leb_le; cbn [length]; lia).
      cbn [negb getImm].
      destruct (Nat.eqb_spec T Tlo) as [ET|ET]; cbn [negb].
      * subst T. apply loop_between; [assumption|assumption|lia].
      * eexists. reflexivity.
  - apply Forall_app in Hall. destruct Hall as [Hall HMI].
    inversion HMI as [|? ? Hrun _]; subst.
    rewrite app_assoc in *. rewrite length_snoc in *. rewrite snoc_app.
    destruct fuel; [lia|].
    destruct Hrun as [Hd|Hd Ht Ho|Dest Ht Hc|Dest Ht Hj].
    + rewrite loop_debug by assumption.
      apply IH; [assumption|assumption|lia].
    + rewrite loop_opaque by assumption. eexists. reflexivity.
    + destruct (condBranchTo_isBranch MI Dest Hc) as [Hd [Hn [cm [Hv Hb]]]].
      rewrite (loop_branch _ _ _ _ _ _ _ _ _ cm Dest Hd Ht Hb).
      rewrite (validCodes_not_any Hok cm Hv).
      destruct Hinv as [E|[c [ops [T [E [Hlen ET]]]]]]; subst.
      * apply IH; [assumption| |lia].
        right. exists cm, (Operands MI), Dest.
        split; [reflexivity|]. split; [lia|reflexivity].
      * replace (length (MO_Immediate c :: ops) <=? 4)%nat with true
          by (symmetry; apply Nat.leb_le; cbn [length]; lia).
        cbn [negb getImm].
        destruct (T =? Dest)%nat; cbn [negb].
        -- apply IH; [assumption| |lia].
           right. exists c, ops, T. auto.
        -- eexists. reflexivity.
    + destruct (jumpTo_isBranch MI Dest Hj) as [Hd Hb].
      rewrite (loop_branch _ _ _ _ _ _ _ _ _ CCMASK_ANY Dest Hd Ht Hb).
      rewrite Z.eqb_refl.
      destruct AM; cbn [negb].
      * destruct (isLayoutSuccessor _ Dest).
        -- apply IH; [assumption|left; reflexivity|lia].
        -- apply IH; [assumption|left; reflexivity|lia].
      * apply IH; [assumption| |lia].
        destruct Hinv as [E|[c [ops [T [E [Hlen ET]]]]]]; [left; assumption|].
        right. exists c, ops, Dest. auto.
Qed.

End MixedDestinations.

(** C8 (amended).  A block whose trailing terminator run holds two
    conditional branches to different blocks with no unconditional jump
    to a block between them: [AnalyzeBranch], called with no condition
    recorded, returns true (the block cannot be analysed), with or
    without modification. *)
Theorem AnalyzeBranch_mixed_destinations (Hok : CondCodeMasks_ok)
    (pre mid post : list MachineInstr) (Hi Lo : MachineInstr)
    (Thi Tlo : MBBRef) (Succ TBB FBB : option MBBRef) (AllowModify : bool) :
  isUnpredicatedTerminator Hi = true -> condBranchTo Hi Thi ->
  isUnpredicatedTerminator Lo = true -> condBranchTo Lo Tlo ->
  Thi <> Tlo ->
  Forall RunInstrNoJump mid ->
  Forall RunInstr post ->
  exists st,
    AnalyzeBranch (mkMBB (pre ++ Hi :: mid ++ Lo :: post) Succ)
      TBB FBB [] AllowModify
    = Some (Ok (true, st)).
Proof.
  intros HiT HiC LoT LoC Hdiff Hmid Hpost.
  unfold AnalyzeBranch. cbn [Insts].
  replace (pre ++ Hi :: mid ++ Lo :: post)
    with ((((((pre ++ [Hi]) ++ mid) ++ [Lo]) ++ post)) ++ [])
    by (rewrite app_nil_r; repeat rewrite <- app_assoc; reflexivity).
  replace (length ((((((pre ++ [Hi]) ++ mid) ++ [Lo]) ++ post)) ++ []))
    with (length ((((pre ++ [Hi]) ++ mid) ++ [Lo]) ++ post))
    by (rewrite app_nil_r; reflexivity).
  apply (loop_below AllowModify Succ Hi Lo Thi Tlo Hok HiT HiC LoT LoC Hdiff);
    [assumption|assumption|left; reflexivity|lia].
Qed.

(** ** loadImmediate *)

Lemma isInt12_range (v : Z) : isInt 12 v = true <-> - 2 ^ 11 <= v < 2 ^ 11.
Proof.
  unfold isInt. change (12 - 1) with 11.
  rewrite andb_true_iff, Z.leb_le, Z.ltb_lt. tauto.
Qed.

Lemma isInt32_range (v : Z) : isInt 32 v = true <-> - 2 ^ 31 <= v < 2 ^ 31.
Proof.
  unfold isInt. change (32 - 1) with 31.
  rewrite andb_true_iff, Z.leb_le, Z.ltb_lt. tauto.
Qed.

(** The two insertions before the same position. *)
Lemma BuildMI_at_twice (l : list MachineInstr) (I : nat) (x y : MachineInstr) :
  firstn (S I) (firstn I l ++ x :: skipn I l)
    ++ y :: skipn (S I) (firstn I l ++ x :: skipn I l)
  = firstn I l ++ [x; y] ++ skipn I l.
Proof.
  destruct (Nat.le_gt_cases I (length l)) as [Hle|Hgt].
  - assert (Hlen : length (firstn I l) = I) by (apply firstn_length_le; exact Hle).
    rewrite <- Hlen at 1.
    rewrite firstn_middle.
    rewrite skipn_app.
    replace (S I - length (firstn I l))%nat with 1%nat by lia.
    rewrite skipn_all2 by lia.
    cbn [skipn app]. rewrite <- app_assoc. reflexivity.
  - rewrite (firstn_all2 l) by lia.
    rewrite (skipn_all2 l) by lia.
    rewrite firstn_all2 by (rewrite length_app; cbn [length]; lia).
    rewrite skipn_all2 by (rewrite length_app; cbn [length]; lia).
    rewrite <- app_assoc. reflexivity.
Qed.

Lemma inserted_length (l m : list MachineInstr) (I : nat) :
  length (firstn I l ++ m ++ skipn I l) = (length m + length l)%nat.
Proof.
  rewrite !length_app.
  rewrite <- (firstn_skipn I l) at 3. rewrite length_app. lia.
Qed.

(** The test [Value & 0x800] reads bit 11 of the value. *)
Lemma land_bit11 (v : Z) : negb (Z.land v 0x800 =? 0) = Z.testbit v 11.
Proof.
  change 0x800 with (2 ^ 11).
  destruct (Z.testbit v 11) eqn:Hb.
  - destruct (Z.eqb_spec (Z.land v (2 ^ 11)) 0) as [E|E]; [|reflexivity].
    exfalso.
    assert (Ht : Z.testbit (Z.land v (2 ^ 11)) 11 = true).
    { rewrite Z.land_spec, Hb, Z.pow2_bits_true by lia. reflexivity. }
    rewrite E, Z.bits_0 in Ht. discriminate.
  - assert (E : Z.land v (2 ^ 11) = 0).
    { apply Z.bits_inj'. intros n Hn.
      rewrite Z.land_spec, Z.bits_0, Z.pow2_bits_eqb by lia.
      destruct (Z.eqb_spec 11 n) as [E|E].
      - subst n. rewrite Hb. reflexivity.
      - apply andb_false_r. }
    rewrite E. reflexivity.
Qed.

Lemma loadImmediate_one (MBB : MachineBasicBlock) (MBBI : nat)
    (RegInfo : MachineRegisterInfo) (v : Z) :
  isInt 12 v = true ->
  exists Reg RegInfo',
    createVirtualRegister RegInfo
      (if isRV64 then GR64BitRegClass else GR32BitRegClass)
    = (Reg, RegInfo') /\
    loadImmediate MBB MBBI RegInfo v
    = Ok (mkMBB (firstn MBBI (Insts MBB)
                   ++ [mkMI ADDI [MO_Register Reg true; MO_Register zero false;
                                  MO_Immediate v]]
                   ++ skipn MBBI (Insts MBB))
                (LayoutSuccessor MBB),
          RegInfo', Reg).
Proof.
  intros H. unfold loadImmediate, createVirtualRegister. rewrite H.
  eexists. eexists. split; reflexivity.
Qed.

Lemma loadImmediate_two (MBB : MachineBasicBlock) (MBBI : nat)
    (RegInfo : MachineRegisterInfo) (v : Z) :
  isInt 12 v = false -> isInt 32 v = true ->
  exists Reg RegInfo',
    createVirtualRegister RegInfo
      (if isRV64 then GR64BitRegClass else GR32BitRegClass)
    = (Reg, RegInfo') /\
    loadImmediate MBB MBBI RegInfo v
    = Ok (mkMBB (firstn MBBI (Insts MBB)
                   ++ [mkMI LUI
                         [MO_Register Reg true;
                          MO_Immediate
                            (if Z.testbit v 11
                             then Z.land (Z.shiftr v 12) 0xFFFFF
                             else Z.land (Z.shiftr v 12 + 1) 0xFFFFF)];
                       mkMI LLI
                         [MO_Register Reg true; MO_Register zero false;
                          MO_Immediate (Z.land v 0xFFF)]]
                   ++ skipn MBBI (Insts MBB))
                (LayoutSuccessor MBB),
          RegInfo', Reg).
Proof.
  intros H12 H32. unfold loadImmediate, createVirtualRegister.
  rewrite H12, H32. cbn [assert bind].
  unfold BuildMI_at. cbn [Insts LayoutSuccessor].
  rewrite BuildMI_at_twice.
  rewrite (land_bit11 v).
  rewrite (Z.land_comm 0xFFFFF (Z.shiftr v 12)).
  rewrite (Z.land_comm 0xFFFFF (Z.shiftr v 12 + 1)).
  rewrite (Z.land_comm 0xFFF v).
  eexists. eexists. split; reflexivity.
Qed.

(** C2 (amended).  [loadImmediate] inserts exactly one instruction, an
    add-immediate from the zero register, when -2^11 <= v < 2^11;
    exactly two, a load-upper-immediate then a lower-immediate
    instruction into the same new virtual register, when 2^11 <= v < 2^31
    or -2^31 <= v < -2^11; and is fatal with ConstantTooLarge when
    v >= 2^31 or v < -2^31. *)
Theorem loadImmediate_count (MBB : MachineBasicBlock) (MBBI : nat)
    (RegInfo : MachineRegisterInfo) (v : Z) :
  (- 2 ^ 11 <= v < 2 ^ 11 ->
   exists Reg RegInfo' MBB',
     createVirtualRegister RegInfo
       (if isRV64 then GR64BitRegClass else GR32BitRegClass)
     = (Reg, RegInfo') /\
     loadImmediate MBB MBBI RegInfo v = Ok (MBB', RegInfo', Reg) /\
     Insts MBB'
     = firstn MBBI (Insts MBB)
         ++ [mkMI ADDI [MO_Register Reg true; MO_Register zero false;
                        MO_Immediate v]]
         ++ skipn MBBI (Insts MBB) /\
     length (Insts MBB') = S (length (Insts MBB))) /\
  (2 ^ 11 <= v < 2 ^ 31 \/ - 2 ^ 31 <= v < - 2 ^ 11 ->
   exists Reg RegInfo' MBB' hi lo,
     createVirtualRegister RegInfo
       (if isRV64 then GR64BitRegClass else GR32BitRegClass)
     = (Reg, RegInfo') /\
     loadImmediate MBB MBBI RegInfo v = Ok (MBB', RegInfo', Reg) /\
     Insts MBB'
     = firstn MBBI (Insts MBB)
         ++ [mkMI LUI [MO_Register Reg true; MO_Immediate hi];
             mkMI LLI [MO_Register Reg true; MO_Register zero false;
                       MO_Immediate lo]]
         ++ skipn MBBI (Insts MBB) /\
     length (Insts MBB') = S (S (length (Insts MBB)))) /\
  (v < - 2 ^ 31 \/ 2 ^ 31 <= v ->
   loadImmediate MBB MBBI RegInfo v = Abort ConstantTooLarge).
Proof.
  split; [|split].
  - intros Hv.
    destruct (loadImmediate_one MBB MBBI RegInfo v) as [Reg [RI' [EV E]]];
      [apply isInt12_range; exact Hv|].
    eexists. eexists. eexists. split; [exact EV|]. split; [exact E|].
    cbn [Insts]. split; [reflexivity|].
    rewrite inserted_length. reflexivity.
  - intros Hv.
    destruct (loadImmediate_two MBB MBBI RegInfo v) as [Reg [RI' [EV E]]].
    + destruct (isInt 12 v) eqn:H12; [|reflexivity].
      apply isInt12_range in H12. lia.
    + apply isInt32_range. lia.
    + eexists. eexists. eexists. eexists. eexists.
      split; [exact EV|]. split; [exact E|].
      cbn [Insts]. split; [reflexivity|].
      rewrite inserted_length. reflexivity.
  - intros Hv.
    unfold loadImmediate, createVirtualRegister.
    destruct (isInt 12 v) eqn:H12; [apply isInt12_range in H12; lia|].
    destruct (isInt 32 v) eqn:H32; [apply isInt32_range in H32; lia|].
    reflexivity.
Qed.

(** C3.  For a value that fits 32 but not 12 signed bits, the operand of
    the load-upper-immediate is [(v >> 12) & 0xFFFFF] when bit 11 of [v]
    is set and [((v >> 12) + 1) & 0xFFFFF] when it is clear, and the
    operand of the lower-immediate instruction is [v & 0xFFF]; for 5000
    the operands are 2 and 0x388. *)
Theorem loadImmediate_split (MBB : MachineBasicBlock) (MBBI : nat)
    (RegInfo : MachineRegisterInfo) :
  (forall v,
      isInt 32 v = true -> isInt 12 v = false ->
      exists Reg RegInfo',
        loadImmediate MBB MBBI RegInfo v
        = Ok (mkMBB (firstn MBBI (Insts MBB)
                       ++ [mkMI LUI
                             [MO_Register Reg true;
                              MO_Immediate
                                (if Z.testbit v 11
                                 then Z.land (Z.shiftr v 12) 0xFFFFF
                                 else Z.land (Z.shiftr v 12 + 1) 0xFFFFF)];
                           mkMI LLI
                             [MO_Register Reg true; MO_Register zero false;
                              MO_Immediate (Z.land v 0xFFF)]]
                       ++ skipn MBBI (Insts MBB))
                    (LayoutSuccessor MBB),
              RegInfo', Reg)) /\
  (exists Reg RegInfo',
      loadImmediate MBB MBBI RegInfo 5000
      = Ok (mkMBB (firstn MBBI (Insts MBB)
                     ++ [mkMI LUI [MO_Register Reg true; MO_Immediate 2];
                         mkMI LLI [MO_Register Reg true; MO_Register zero false;
                                   MO_Immediate 0x388]]
                     ++ skipn MBBI (Insts MBB))
                  (LayoutSuccessor MBB),
            RegInfo', Reg)).
Proof.
  split.
  - intros v H32 H12.
    destruct (loadImmediate_two MBB MBBI RegInfo v H12 H32) as [Reg [RI' [_ E]]].
    exists Reg, RI'. exact E.
  - destruct (loadImmediate_two MBB MBBI RegInfo 5000 eq_refl eq_refl)
      as [Reg [RI' [_ E]]].
    exists Reg, RI'. exact E.
Qed.

(** ** isSimpleMove *)

Lemma isSimpleMove_classified (MI : MachineInstr) (FrameIndex Flag r FI : Z) :
  isSimpleMove MI FrameIndex Flag = Ok (r, FI) ->
  r <> 0 ->
  Z.land (TSFlags (getOpcode MI)) Flag <> 0 /\
  exists R d Index d' rest,
    Operands MI
    = MO_Register R d :: MO_FrameIndex Index :: MO_Immediate 0
        :: MO_Register 0 d' :: rest /\
    FI = Index /\ r = to_int R.
Proof.
  unfold isSimpleMove, getOperand, at_.
  destruct (Z.eqb_spec (Z.land (TSFlags (getOpcode MI)) Flag) 0) as [E|E];
    cbn [negb]; [intros H; inversion H; congruence|].
  intros H Hr. split; [exact E|].
  destruct (Operands MI) as [|o0 [|o1 [|o2 [|o3 rest]]]];
    cbn [nth_error bind] in H; try discriminate H;
    destruct o1; cbn [isFI bind getImm getIndex] in H;
    try (inversion H; congruence);
    try discriminate H;
    destruct o2; cbn [bind getImm] in H; try discriminate H;
    destruct (Z.eqb_spec Imm 0) as [EI|EI];
    try (inversion H; congruence);
    cbn [nth_error bind] in H; try discriminate H.
  destruct o3; cbn [bind getReg] in H; try discriminate H.
  destruct (Z.eqb_spec Reg 0) as [ER|ER]; [|inversion H; congruence].
  cbn [bind getIndex nth_error] in H.
  destruct o0; cbn [bind getReg] in H; try discriminate H.
  inversion H; subst.
  repeat eexists.
Qed.

Lemma isSimpleMove_displaced (MI : MachineInstr) (FrameIndex Flag Disp : Z) :
  getOperand MI 2 = Ok (MO_Immediate Disp) ->
  Disp <> 0 ->
  isSimpleMove MI FrameIndex Flag = Ok (0, FrameIndex).
Proof.
  unfold isSimpleMove, getOperand, at_.
  intros H2 Hd.
  destruct (negb (Z.land (TSFlags (getOpcode MI)) Flag =? 0)); [|reflexivity].
  destruct (Operands MI) as [|o0 [|o1 [|o2 rest]]];
    cbn [nth_error] in *; try discriminate H2.
  inversion H2; subst. cbn [bind getImm].
  destruct (isFI o1); [|reflexivity].
  destruct (Z.eqb_spec Disp 0); [contradiction|reflexivity].
Qed.

(** C9.  [isLoadFromStackSlot] and [isStoreToStackSlot] return a register
    only for an instruction whose opcode carries the flag asked for,
    whose second operand is a frame index, whose displacement operand is
    the immediate 0 and whose base-register operand is register 0; for an
    instruction whose displacement operand is another immediate they
    return 0 and leave [FrameIndex] alone, whatever the other operands
    are. *)
Theorem isSimpleMove_narrow (MI : MachineInstr) (FrameIndex : Z) :
  (forall r FI,
      isLoadFromStackSlot MI FrameIndex = Ok (r, FI) -> r <> 0 ->
      Z.land (TSFlags (getOpcode MI)) SimpleLoad <> 0 /\
      exists R d Index d' rest,
        Operands MI
        = MO_Register R d :: MO_FrameIndex Index :: MO_Immediate 0
            :: MO_Register 0 d' :: rest /\
        FI = Index /\ r = to_unsigned (to_int R)) /\
  (forall r FI,
      isStoreToStackSlot MI FrameIndex = Ok (r, FI) -> r <> 0 ->
      Z.land (TSFlags (getOpcode MI)) SimpleStore <> 0 /\
      exists R d Index d' rest,
        Operands MI
        = MO_Register R d :: MO_FrameIndex Index :: MO_Immediate 0
            :: MO_Register 0 d' :: rest /\
        FI = Index /\ r = to_unsigned (to_int R)) /\
  (forall Disp,
      getOperand MI 2 = Ok (MO_Immediate Disp) -> Disp <> 0 ->
      isLoadFromStackSlot MI FrameIndex = Ok (0, FrameIndex) /\
      isStoreToStackSlot MI FrameIndex = Ok (0, FrameIndex)).
Proof.
  split; [|split].
  - intros r FI H Hr. unfold isLoadFromStackSlot in H.
    destruct (isSimpleMove MI FrameIndex SimpleLoad) as [[r0 FI0]|e] eqn:E;
      cbn [bind fst snd] in H; [|discriminate H].
    inversion H; subst.
    destruct (isSimpleMove_classified _ _ _ _ _ E) as [Hf [R [d [Ix [d' [rest [Ho [HF HR]]]]]]]].
    + intros Z0. subst r0. apply Hr. reflexivity.
    + split; [exact Hf|]. exists R, d, Ix, d', rest. subst. auto.
  - intros r FI H Hr. unfold isStoreToStackSlot in H.
    destruct (isSimpleMove MI FrameIndex SimpleStore) as [[r0 FI0]|e] eqn:E;
      cbn [bind fst snd] in H; [|discriminate H].
    inversion H; subst.
    destruct (isSimpleMove_classified _ _ _ _ _ E) as [Hf [R [d [Ix [d' [rest [Ho [HF HR]]]]]]]].
    + intros Z0. subst r0. apply Hr. reflexivity.
    + split; [exact Hf|]. exists R, d, Ix, d', rest. subst. auto.
  - intros Disp H2 Hd.
    unfold isLoadFromStackSlot, isStoreToStackSlot.
    rewrite !(isSimpleMove_displaced MI FrameIndex _ Disp H2 Hd).
    split; reflexivity.
Qed.

(** ** RemoveBranch: one iteration of the loop *)

Lemma eraseFromParent_middle (l t : list MachineInstr) (MI : MachineInstr)
    (Succ : option MBBRef) :
  eraseFromParent (mkMBB (l ++ MI :: t) Succ) (length l) = mkMBB (l ++ t) Succ.
Proof.
  unfold eraseFromParent. cbn [Insts LayoutSuccessor].
  rewrite firstn_app, firstn_all, Nat.sub_diag. cbn [firstn].
  rewrite app_nil_r.
  replace (l ++ MI :: t) with ((l ++ [MI]) ++ t) by apply snoc_app.
  rewrite skipn_app.
  rewrite skipn_all2 by (rewrite length_snoc; lia).
  rewrite length_snoc, Nat.sub_diag. reflexivity.
Qed.

Lemma RemoveBranch_loop_debug (fuel : nat) (l t : list MachineInstr)
    (MI : MachineInstr) (Succ : option MBBRef) (Count : Z) :
  isDebugValue MI = true ->
  RemoveBranch_loop (S fuel) (mkMBB (l ++ MI :: t) Succ) (S (length l)) Count
  = RemoveBranch_loop fuel (mkMBB (l ++ MI :: t) Succ) (length l) Count.
Proof.
  intros Hd.
  cbn [RemoveBranch_loop Nat.eqb Nat.sub Insts].
  rewrite Nat.sub_0_r, nth_error_middle, Hd. reflexivity.
Qed.

Lemma RemoveBranch_loop_other (fuel : nat) (l t : list MachineInstr)
    (MI : MachineInstr) (Succ : option MBBRef) (Count : Z) :
  isDebugValue MI = false ->
  RemoveBranch_loop (S fuel) (mkMBB (l ++ MI :: t) Succ) (S (length l)) Count
  = match isBranch MI with
    | Abort e => Some (Abort e)
    | Ok None => Some (Ok (Count, mkMBB (l ++ MI :: t) Succ))
    | Ok (Some (_, Target)) =>
      if negb (isMBB Target) then Some (Ok (Count, mkMBB (l ++ MI :: t) Succ))
      else
        RemoveBranch_loop fuel (mkMBB (l ++ t) Succ) (length (l ++ t))
          (to_unsigned (Count + 1))
    end.
Proof.
  intros Hd.
  cbn [RemoveBranch_loop Nat.eqb Nat.sub Insts].
  rewrite Nat.sub_0_r, nth_error_middle, Hd.
  rewrite eraseFromParent_middle. cbn [Insts]. reflexivity.
Qed.

Lemma RemoveBranch_loop_debug_suffix (dbg : list MachineInstr) :
  Forall (fun MI => isDebugValue MI = true) dbg ->
  forall (fuel : nat) (l t : list MachineInstr) (Succ : option MBBRef)
         (Count : Z),
    RemoveBranch_loop (length dbg + fuel) (mkMBB ((l ++ dbg) ++ t) Succ)
      (length (l ++ dbg)) Count
    = RemoveBranch_loop fuel (mkMBB ((l ++ dbg) ++ t) Succ) (length l) Count.
Proof.
  induction dbg as [|MI dbg IH] using rev_ind; intros Hall fuel l t Succ Count.
  - rewrite app_nil_r. reflexivity.
  - apply Forall_app in Hall. destruct Hall as [Hall HMI].
    inversion HMI as [|? ? Hd _]; subst.
    rewrite !length_app. cbn [length].
    replace (length dbg + 1 + fuel)%nat with (S (length dbg + fuel)) by lia.
    replace (length l + (length dbg + 1))%nat with (S (length (l ++ dbg)))
      by (rewrite length_app; lia).
    replace ((l ++ dbg ++ [MI]) ++ t) with ((l ++ dbg) ++ MI :: t)
      by (rewrite <- !app_assoc; reflexivity).
    rewrite RemoveBranch_loop_debug by assumption.
    replace ((l ++ dbg) ++ MI :: t) with ((l ++ dbg) ++ ([MI] ++ t))
      by reflexivity.
    exact (IH Hall fuel l ([MI] ++ t) Succ Count).
Qed.

(** ** RemoveBranch as one backward pass *)

Lemma to_unsigned_succ (a : Z) (c : nat) :
  to_unsigned (to_unsigned (a + 1) + Z.of_nat c) = to_unsigned (a + Z.of_nat (S c)).
Proof.
  unfold to_unsigned. rewrite Zplus_mod_idemp_l. f_equal. lia.
Qed.

Lemma RemoveBranch_loop_strip (l : list MachineInstr) :
  forall (dbg : list MachineInstr) (fuel : nat) (Succ : option MBBRef)
         (Count : Z),
    Forall (fun MI => isDebugValue MI = true) dbg ->
    0 <= Count < 2 ^ 32 ->
    (length l * (length l + length dbg + 1) < fuel)%nat ->
    RemoveBranch_loop fuel (mkMBB (l ++ dbg) Succ) (length l) Count
    = Some (match stripBranches (rev l) with
            | Ok (c, r) =>
                Ok (to_unsigned (Count + Z.of_nat c), mkMBB (rev r ++ dbg) Succ)
            | Abort e => Abort e
            end).
Proof.
  induction l as [|MI l IH] using rev_ind; intros dbg fuel Succ Count Hdbg HC Hf.
  - destruct fuel; [lia|].
    cbn. unfold to_unsigned. rewrite Z.add_0_r, Z.mod_small by exact HC.
    reflexivity.
  - rewrite rev_unit. rewrite length_snoc in *. rewrite snoc_app.
    destruct fuel; [lia|].
    cbn [stripBranches].
    destruct (isDebugValue MI) eqn:Hd.
    + rewrite RemoveBranch_loop_debug by assumption.
      rewrite (IH (MI :: dbg)); [|constructor; assumption|assumption|cbn [length]; nia].
      destruct (stripBranches (rev l)) as [[c r]|e]; cbn [bind fst snd]; [|reflexivity].
      cbn [rev]. rewrite <- app_assoc. reflexivity.
    + rewrite RemoveBranch_loop_other by assumption.
      destruct (isBranch MI) as [[[c0 Target]|]|e]; cbn [negb].
      * destruct (isMBB Target); cbn [negb].
        -- pose proof (RemoveBranch_loop_debug_suffix dbg Hdbg
                         (fuel - length dbg) l [] Succ
                         (to_unsigned (Count + 1))) as E.
           rewrite app_nil_r in E.
           replace (length dbg + (fuel - length dbg))%nat with fuel in E by nia.
           rewrite E.
           rewrite (IH dbg); [|assumption| |nia].
           ++ destruct (stripBranches (rev l)) as [[c r]|e];
                cbn [bind fst snd]; [|reflexivity].
              rewrite to_unsigned_succ. reflexivity.
           ++ unfold to_unsigned. apply Z.mod_pos_bound. lia.
        -- cbn [rev]. rewrite rev_involutive.
           unfold to_unsigned. rewrite Z.add_0_r, Z.mod_small by exact HC.
           rewrite snoc_app. reflexivity.
      * cbn [rev]. rewrite rev_involutive.
        unfold to_unsigned. rewrite Z.add_0_r, Z.mod_small by exact HC.
        rewrite snoc_app. reflexivity.
      * reflexivity.
Qed.

(** [RemoveBranch] within its fuel, as the backward pass. *)
Lemma RemoveBranch_spec (MBB : MachineBasicBlock) :
  RemoveBranch MBB
  = Some (match stripBranches (rev (Insts MBB)) with
          | Ok (c, r) =>
              Ok (to_unsigned (Z.of_nat c), mkMBB (rev r) (LayoutSuccessor MBB))
          | Abort e => Abort e
          end).
Proof.
  destruct MBB as [l Succ]. unfold RemoveBranch. cbn [Insts LayoutSuccessor].
  replace (mkMBB l Succ) with (mkMBB (l ++ []) Succ) by (rewrite app_nil_r; reflexivity).
  rewrite RemoveBranch_loop_strip; [|constructor|lia|cbn [length]; nia].
  destruct (stripBranches (rev l)) as [[c r]|e]; [|reflexivity].
  rewrite app_nil_r. reflexivity.
Qed.

(** ** RemoveBranch: what is erased and what is kept *)

Lemma stripBranches_length (r : list MachineInstr) :
  forall c r', stripBranches r = Ok (c, r') ->
               (length r' + c = length r)%nat.
Proof.
  induction r as [|MI r IH]; intros c r' H; cbn [stripBranches] in H.
  - inversion H; subst. reflexivity.
  - destruct (isDebugValue MI).
    + destruct (stripBranches r) as [[c0 r0]|e]; cbn [bind fst snd] in H;
        [|discriminate H].
      inversion H; subst. specialize (IH _ _ eq_refl). cbn [length]. lia.
    + destruct (isBranch MI) as [[[c0 Target]|]|e]; try discriminate H.
      * destruct (negb (isMBB Target)).
        -- inversion H; subst. lia.
        -- destruct (stripBranches r) as [[c1 r1]|e]; cbn [bind fst snd] in H;
             [|discriminate H].
           inversion H; subst. specialize (IH _ _ eq_refl). cbn [length]. lia.
      * inversion H; subst. lia.
Qed.

Lemma stripBranches_filter (r : list MachineInstr) :
  forall c r', stripBranches r = Ok (c, r') ->
               filter (fun MI => negb (isBlockBranch MI)) r'
               = filter (fun MI => negb (isBlockBranch MI)) r.
Proof.
  induction r as [|MI r IH]; intros c r' H; cbn [stripBranches] in H.
  - inversion H; subst. reflexivity.
  - destruct (isDebugValue MI) eqn:Hd.
    + destruct (stripBranches r) as [[c0 r0]|e]; cbn [bind fst snd] in H;
        [|discriminate H].
      inversion H; subst. cbn [filter]. rewrite (IH _ _ eq_refl). reflexivity.
    + destruct (isBranch MI) as [[[c0 Target]|]|e] eqn:Hb; try discriminate H.
      * destruct (isMBB Target) eqn:Hm; cbn [negb] in H.
        -- destruct (stripBranches r) as [[c1 r1]|e]; cbn [bind fst snd] in H;
             [|discriminate H].
           inversion H; subst. cbn [filter].
           unfold isBlockBranch at 2. rewrite Hd, Hb, Hm. cbn [negb andb].
           apply (IH _ _ eq_refl).
        -- inversion H; subst. reflexivity.
      * inversion H; subst. reflexivity.
Qed.

Lemma stripBranches_idempotent (r : list MachineInstr) :
  forall c r', stripBranches r = Ok (c, r') -> stripBranches r' = Ok (O, r').
Proof.
  induction r as [|MI r IH]; intros c r' H; cbn [stripBranches] in H.
  - inversion H; subst. reflexivity.
  - destruct (isDebugValue MI) eqn:Hd.
    + destruct (stripBranches r) as [[c0 r0]|e]; cbn [bind fst snd] in H;
        [|discriminate H].
      inversion H; subst. cbn [stripBranches]. rewrite Hd.
      rewrite (IH _ _ eq_refl). reflexivity.
    + destruct (isBranch MI) as [[[c0 Target]|]|e] eqn:Hb; try discriminate H.
      * destruct (isMBB Target) eqn:Hm; cbn [negb] in H.
        -- destruct (stripBranches r) as [[c1 r1]|e]; cbn [bind fst snd] in H;
             [|discriminate H].
           inversion H; subst. apply (IH _ _ eq_refl).
        -- inversion H; subst. cbn [stripBranches]. rewrite Hd, Hb, Hm.
           reflexivity.
      * inversion H; subst. cbn [stripBranches]. rewrite Hd, Hb. reflexivity.
Qed.

Lemma RemoveBranch_inv (MBB MBB' : MachineBasicBlock) (n : Z) :
  RemoveBranch MBB = Some (Ok (n, MBB')) ->
  exists c r,
    stripBranches (rev (Insts MBB)) = Ok (c, r) /\
    n = to_unsigned (Z.of_nat c) /\
    MBB' = mkMBB (rev r) (LayoutSuccessor MBB).
Proof.
  rewrite RemoveBranch_spec.
  destruct (stripBranches (rev (Insts MBB))) as [[c r]|e]; intros H;
    inversion H; subst.
  exists c, r. auto.
Qed.

(** X1.  [RemoveBranch] comes to an end; the count it returns is the
    number of instructions it erased, and the layout successor of the
    block is as before. *)
Theorem RemoveBranch_count (MBB : MachineBasicBlock) :
  Z.of_nat (length (Insts MBB)) < 2 ^ 32 ->
  RemoveBranch MBB <> None /\
  forall n MBB',
    RemoveBranch MBB = Some (Ok (n, MBB')) ->
    0 <= n /\
    Z.of_nat (length (Insts MBB')) + n = Z.of_nat (length (Insts MBB)) /\
    LayoutSuccessor MBB' = LayoutSuccessor MBB.
Proof.
  intros Hlen. split.
  - rewrite RemoveBranch_spec. discriminate.
  - intros n MBB' H.
    destruct (RemoveBranch_inv _ _ _ H) as [c [r [Hs [Hn HM]]]]. subst.
    pose proof (stripBranches_length _ _ _ Hs) as Hl.
    rewrite length_rev in Hl. cbn [Insts LayoutSuccessor]. rewrite length_rev.
    unfold to_unsigned. rewrite Z.mod_small by lia.
    split; [lia|]. split; [lia|reflexivity].
Qed.

(** X2.  [RemoveBranch] erases nothing but branches to a block: the
    instructions that are not such branches, debug values among them, are
    all kept, in their order. *)
Theorem RemoveBranch_keeps (MBB MBB' : MachineBasicBlock) (n : Z) :
  RemoveBranch MBB = Some (Ok (n, MBB')) ->
  filter (fun MI => negb (isBlockBranch MI)) (Insts MBB')
  = filter (fun MI => negb (isBlockBranch MI)) (Insts MBB).
Proof.
  intros H.
  destruct (RemoveBranch_inv _ _ _ H) as [c [r [Hs [Hn HM]]]]. subst.
  cbn [Insts].
  pose proof (stripBranches_filter _ _ _ Hs) as Hf.
  rewrite filter_rev, Hf, filter_rev, rev_involutive. reflexivity.
Qed.

(** X3.  [RemoveBranch] leaves nothing for a second call: on the block it
    returns, it erases nothing and returns 0. *)
Theorem RemoveBranch_idempotent (MBB MBB' : MachineBasicBlock) (n : Z) :
  RemoveBranch MBB = Some (Ok (n, MBB')) ->
  RemoveBranch MBB' = Some (Ok (0, MBB')).
Proof.
  intros H.
  destruct (RemoveBranch_inv _ _ _ H) as [c [r [Hs [Hn HM]]]]. subst.
  rewrite RemoveBranch_spec. cbn [Insts LayoutSuccessor].
  rewrite rev_involutive.
  rewrite (stripBranches_idempotent _ _ _ Hs). reflexivity.
Qed.

(** The instruction [InsertBranch] appends is a branch to a block. *)
Lemma InsertBranch_appends (MBB MBB1 : MachineBasicBlock) (T : MBBRef)
    (FBB : option MBBRef) (Cond : list MachineOperand) (k : Z) :
  InsertBranch MBB (Some T) FBB Cond = Ok (k, MBB1) ->
  k = 1 /\
  exists MI,
    MBB1 = mkMBB (Insts MBB ++ [MI]) (LayoutSuccessor MBB) /\
    isDebugValue MI = false /\
    exists c, isBranch MI = Ok (Some (c, MO_MachineBasicBlock T)).
Proof.
  unfold InsertBranch.
  destruct (length Cond <=? 4)%nat; cbn [assert bind]; [|discriminate].
  destruct Cond as [|C0 Cond'].
  - destruct FBB; [discriminate|]. intros H. inversion H; subst.
    split; [reflexivity|]. eexists. split; [reflexivity|].
    split; [reflexivity|]. eexists. reflexivity.
  - destruct (getImm C0) as [Imm0|e]; cbn [bind]; [|discriminate].
    unfold buildCondBranch.
    destruct (at_ (C0 :: Cond') 1) as [C1|e1]; cbn [bind];
      [|repeat match goal with
               | |- context [if ?b then _ else _] => destruct b
               end; discriminate].
    destruct (getReg C1) as [R1|e1]; cbn [bind];
      [|repeat match goal with
               | |- context [if ?b then _ else _] => destruct b
               end; discriminate].
    destruct (at_ (C0 :: Cond') 2) as [C2|e2]; cbn [bind];
      [|repeat match goal with
               | |- context [if ?b then _ else _] => destruct b
               end; discriminate].
    destruct (getReg C2) as [R2|e2]; cbn [bind];
      [|repeat match goal with
               | |- context [if ?b then _ else _] => destruct b
               end; discriminate].
    repeat match goal with
           | |- context [if ?b then _ else _] => destruct b
           end; cbn [bind]; try discriminate;
      intros H; inversion H; subst;
      (split; [reflexivity|]); eexists; (split; [reflexivity|]);
      (split; [reflexivity|]); eexists; reflexivity.
Qed.

(** X4.  [RemoveBranch] takes back what [InsertBranch] appended: after an
    insertion it erases the new branch and then does what it does on the
    block before the insertion, with one more in the count. *)
Theorem RemoveBranch_InsertBranch (MBB MBB1 MBB' : MachineBasicBlock)
    (T : MBBRef) (Cond : list MachineOperand) (k n : Z) :
  InsertBranch MBB (Some T) None Cond = Ok (k, MBB1) ->
  RemoveBranch MBB = Some (Ok (n, MBB')) ->
  RemoveBranch MBB1 = Some (Ok (to_unsigned (n + 1), MBB')).
Proof.
  intros Hi Hr.
  destruct (InsertBranch_appends _ _ _ _ _ _ Hi) as [_ [MI [E [Hd [c Hb]]]]].
  destruct (RemoveBranch_inv _ _ _ Hr) as [c0 [r [Hs [Hn HM]]]]. subst.
  rewrite RemoveBranch_spec. cbn [Insts LayoutSuccessor].
  rewrite rev_unit. cbn [stripBranches]. rewrite Hd, Hb. cbn [isMBB negb].
  rewrite Hs. cbn [bind fst snd].
  do 3 f_equal.
  unfold to_unsigned. rewrite Zplus_mod_idemp_l. f_equal. lia.
Qed.

(** ** AnalyzeBranch: what it does to the block *)

Lemma eraseFromParent_eraseAfter_Insts (MBB : MachineBasicBlock) (I : nat) :
  Insts (eraseFromParent (eraseAfter MBB I) I) = firstn I (Insts MBB).
Proof.
  unfold eraseFromParent, eraseAfter. cbn [Insts].
  rewrite firstn_firstn.
  rewrite skipn_all2 by (rewrite length_firstn; lia).
  rewrite app_nil_r. f_equal. lia.
Qed.

Lemma AnalyzeBranch_loop_prefix (fuel : nat) :
  forall (AM : bool) (MBB : MachineBasicBlock) (I : nat)
         (TBB FBB : option MBBRef) (Cond : list MachineOperand)
         (r : bool) (st : BranchState),
    AnalyzeBranch_loop fuel AM MBB I TBB FBB Cond = Some (Ok (r, st)) ->
    (exists k, Insts (stMBB st) = firstn k (Insts MBB)) /\
    LayoutSuccessor (stMBB st) = LayoutSuccessor MBB.
Proof.
  induction fuel as [|fuel IH]; intros AM MBB I TBB FBB Cond r st H;
    [discriminate|].
  cbn [AnalyzeBranch_loop] in H.
  repeat match type of H with
  | (if ?c then _ else _) = _ => destruct c
  | match ?x with _ => _ end = _ => destruct x
  end;
  try discriminate;
  try (inversion H; subst; cbn [stMBB]; split; [|reflexivity];
       exists (length (Insts MBB)); rewrite firstn_all; reflexivity);
  apply IH in H; destruct H as [[k Hk] HS];
  rewrite ?eraseFromParent_eraseAfter_Insts in Hk;
  cbn [eraseAfter Insts] in Hk;
  rewrite ?firstn_firstn in Hk;
  (split; [eexists; exact Hk|exact HS]).
Qed.

(** X5.  Whatever [AnalyzeBranch] returns, the block it leaves is an
    initial segment of the block it was given, with the same layout
    successor: instructions are only ever erased from the end, and none
    is inserted or changed. *)
Theorem AnalyzeBranch_prefix (MBB : MachineBasicBlock)
    (TBB FBB : option MBBRef) (Cond : list MachineOperand)
    (AllowModify r : bool) (st : BranchState) :
  AnalyzeBranch MBB TBB FBB Cond AllowModify = Some (Ok (r, st)) ->
  (exists k, Insts (stMBB st) = firstn k (Insts MBB)) /\
  LayoutSuccessor (stMBB st) = LayoutSuccessor MBB.
Proof.
  unfold AnalyzeBranch. apply AnalyzeBranch_loop_prefix.
Qed.

(** ** AnalyzeBranch: the shape of the result *)

Lemma isBranch_code (MI : MachineInstr) (c : Z) (t : MachineOperand) :
  isBranch MI = Ok (Some (c, t)) -> c = CCMASK_ANY \/ In c validCodes.
Proof.
  unfold isBranch, getOperand, validCodes. cbn [In].
  destruct (getOpcode MI);
    try (destruct (at_ (Operands MI) 0); cbn [bind]; intros H;
         inversion H; subst; auto 15; fail);
    try (destruct (at_ (Operands MI) 2); cbn [bind]; intros H;
         inversion H; subst; auto 15; fail);
    destruct (negb (descIsBranch _)); cbn [assert bind]; discriminate.
Qed.

Lemma AnalyzeBranch_loop_shape (fuel : nat) :
  forall (AM : bool) (MBB : MachineBasicBlock) (I : nat)
         (TBB FBB : option MBBRef) (Cond : list MachineOperand)
         (r : bool) (st : BranchState),
    branchShape TBB FBB Cond ->
    AnalyzeBranch_loop fuel AM MBB I TBB FBB Cond = Some (Ok (r, st)) ->
    branchShape (stTBB st) (stFBB st) (stCond st).
Proof.
  induction fuel as [|fuel IH]; intros AM MBB I TBB FBB Cond r st Hsh H;
    [discriminate|].
  cbn [AnalyzeBranch_loop] in H.
  destruct (I =? 0)%nat; [inversion H; subst; exact Hsh|].
  destruct (nth_error (Insts MBB) (I - 1)) as [MI|]; [|discriminate H].
  destruct (isDebugValue MI); [exact (IH _ _ _ _ _ _ _ _ Hsh H)|].
  destruct (negb (isUnpredicatedTerminator MI));
    [inversion H; subst; exact Hsh|].
  destruct (isBranch MI) as [[[c t]|]|e] eqn:Hb;
    [|inversion H; subst; exact Hsh|discriminate H].
  destruct t as [? ?|?|?|Dest]; try (inversion H; subst; exact Hsh).
  destruct (Z.eqb_spec c CCMASK_ANY) as [Ec|Ec].
  - destruct (negb AM).
    + refine (IH _ _ _ _ _ _ _ _ _ H).
      destruct Hsh as [[E1 E2]|[T [c0 [ops [E1 [E2 [E3 E4]]]]]]].
      * left. auto.
      * right. exists Dest, c0, ops. auto.
    + destruct (isLayoutSuccessor (eraseAfter MBB (I - 1)) Dest);
        refine (IH _ _ _ _ _ _ _ _ _ H); left; auto.
  - destruct (isBranch_code _ _ _ Hb) as [E|Hv]; [contradiction|].
    destruct Cond as [|C0 Cond'].
    + refine (IH _ _ _ _ _ _ _ _ _ H).
      right. exists Dest, c, (firstn (getNumExplicitOperands MI) (Operands MI)).
      auto.
    + destruct (negb (length (C0 :: Cond') <=? 4)%nat); [discriminate H|].
      destruct TBB as [T|]; [|discriminate H].
      destruct (negb (T =? Dest)%nat); [inversion H; subst; exact Hsh|].
      destruct (getImm C0); [|discriminate H].
      destruct (to_unsigned a =? c); exact (IH _ _ _ _ _ _ _ _ Hsh H).
Qed.

(** X6.  Called with parameters of one of the two shapes (in particular
    with none set), [AnalyzeBranch] returns parameters of one of the two
    shapes: no condition and no false target, or a true target with a
    condition whose first component is one of the ten codes, never ANY. *)
Theorem AnalyzeBranch_shape (MBB : MachineBasicBlock)
    (TBB FBB : option MBBRef) (Cond : list MachineOperand)
    (AllowModify r : bool) (st : BranchState) :
  branchShape TBB FBB Cond ->
  AnalyzeBranch MBB TBB FBB Cond AllowModify = Some (Ok (r, st)) ->
  branchShape (stTBB st) (stFBB st) (stCond st).
Proof.
  unfold AnalyzeBranch. apply AnalyzeBranch_loop_shape.
Qed.

(** ** AnalyzeBranch: blocks it does not touch *)

(** X7.  On a block with no terminator at its end, the empty block
    included, [AnalyzeBranch] returns false and sets nothing: the block
    and the three parameters are as they were given, stale values
    included. *)
Theorem AnalyzeBranch_no_terminator (pre : list MachineInstr)
    (Succ TBB FBB : option MBBRef) (Cond : list MachineOperand)
    (AllowModify : bool) :
  NoTrailingTerminator pre ->
  AnalyzeBranch (mkMBB pre Succ) TBB FBB Cond AllowModify
  = Some (Ok (false, mkBranchState (mkMBB pre Succ) TBB FBB Cond)).
Proof.
  intros Hpre. unfold AnalyzeBranch. cbn [Insts].
  pose proof (loop_no_terminator pre Hpre (S (length pre)) AllowModify []
                Succ TBB FBB Cond) as E.
  rewrite app_nil_r in E. apply E. lia.
Qed.

(** X8.  When the last instruction of the block that is not a debug
    value is a terminator [isBranch] does not know, or a branch whose
    target is not a block, [AnalyzeBranch] returns true at once: the
    block and the parameters are as they were given, also with
    modification allowed. *)
Theorem AnalyzeBranch_opaque (pre dbg : list MachineInstr)
    (MI : MachineInstr) (Succ TBB FBB : option MBBRef)
    (Cond : list MachineOperand) (AllowModify : bool) :
  isDebugValue MI = false ->
  isUnpredicatedTerminator MI = true ->
  opaqueTerminator MI ->
  Forall (fun D => isDebugValue D = true) dbg ->
  AnalyzeBranch (mkMBB (pre ++ MI :: dbg) Succ) TBB FBB Cond AllowModify
  = Some (Ok (true,
       mkBranchState (mkMBB (pre ++ MI :: dbg) Succ) TBB FBB Cond)).
Proof.
  intros Hd Ht Ho Hdbg.
  unfold AnalyzeBranch. cbn [Insts].
  pose proof (loop_debug_suffix dbg Hdbg (S (S (length pre))) AllowModify
                (pre ++ [MI]) [] Succ TBB FBB Cond) as E.
  rewrite app_nil_r in E.
  rewrite snoc_app in E. rewrite length_snoc in E.
  replace (S (length (pre ++ MI :: dbg)))
    with (length dbg + S (S (length pre)))%nat
    by (rewrite length_app; cbn [length]; lia).
  rewrite E.
  apply loop_opaque; assumption.
Qed.

(** ** InsertBranch, AnalyzeBranch, RemoveBranch and
       ReverseBranchCondition together *)

(** X9.  An unconditional jump inserted at the end of a block with no
    terminator is read back by [AnalyzeBranch] as the true target alone;
    when modification is allowed and the target is the layout successor,
    the jump is erased again and the block is the one before the
    insertion, with no target. *)
Theorem InsertBranch_jump_AnalyzeBranch (MBB : MachineBasicBlock)
    (T : MBBRef) (AllowModify : bool) :
  NoTrailingTerminator (Insts MBB) ->
  isUnpredicatedTerminator (mkMI J [MO_MachineBasicBlock T]) = true ->
  exists MBB1,
    InsertBranch MBB (Some T) None [] = Ok (1, MBB1) /\
    AnalyzeBranch MBB1 None None [] AllowModify
    = Some (Ok (false,
         if AllowModify && isLayoutSuccessor MBB T
         then mkBranchState MBB None None []
         else mkBranchState MBB1 (Some T) None [])).
Proof.
  intros Hpre Ht. destruct MBB as [l Succ]. cbn [Insts] in Hpre.
  eexists. split; [reflexivity|].
  unfold BuildMI_end, AnalyzeBranch. cbn [Insts LayoutSuccessor].
  rewrite length_snoc.
  rewrite (loop_branch _ _ l [] (mkMI J [MO_MachineBasicBlock T]) _ _ _ _
             CCMASK_ANY T eq_refl Ht eq_refl).
  rewrite Z.eqb_refl.
  unfold isLayoutSuccessor. cbn [LayoutSuccessor].
  destruct AllowModify; cbn [negb andb].
  - destruct (match Succ with Some Next => (Next =? T)%nat | None => false end).
    + rewrite (loop_no_terminator l Hpre) by lia.
      rewrite app_nil_r. reflexivity.
    + rewrite (loop_no_terminator l Hpre) by lia. reflexivity.
  - rewrite (loop_no_terminator l Hpre) by lia. reflexivity.
Qed.

(** X10.  Two conditional branches to the same block at the end of a
    block: [AnalyzeBranch] returns false with that block as the true
    target and the condition of the lower branch alone; the code and the
    operands of the upper branch are not looked at. *)
Theorem AnalyzeBranch_same_target (Hok : CondCodeMasks_ok)
    (pre : list MachineInstr) (Hi Lo : MachineInstr) (T : MBBRef)
    (Succ : option MBBRef) (AllowModify : bool) :
  NoTrailingTerminator pre ->
  isUnpredicatedTerminator Hi = true -> condBranchTo Hi T ->
  isUnpredicatedTerminator Lo = true -> condBranchTo Lo T ->
  exists c,
    isBranch Lo = Ok (Some (c, MO_MachineBasicBlock T)) /\
    AnalyzeBranch (mkMBB (pre ++ [Hi; Lo]) Succ) None None [] AllowModify
    = Some (Ok (false,
         mkBranchState (mkMBB (pre ++ [Hi; Lo]) Succ) (Some T) None
           (MO_Immediate c :: Operands Lo))).
Proof.
  intros Hpre HiT HiC LoT LoC.
  destruct (condBranchTo_isBranch Lo T LoC) as [Hdl [Hnl [cl [Hvl Hbl]]]].
  destruct (condBranchTo_isBranch Hi T HiC) as [Hdh [Hnh [ch [Hvh Hbh]]]].
  exists cl. split; [exact Hbl|].
  unfold AnalyzeBranch. cbn [Insts].
  replace (pre ++ [Hi; Lo]) with ((pre ++ [Hi]) ++ [Lo])
    by (rewrite <- app_assoc; reflexivity).
  rewrite length_snoc.
  rewrite (loop_branch _ _ _ _ _ _ _ _ _ cl T Hdl LoT Hbl).
  rewrite (validCodes_not_any Hok cl Hvl).
  rewrite snoc_app. rewrite length_snoc.
  rewrite (loop_branch _ _ _ _ _ _ _ _ _ ch T Hdh HiT Hbh).
  rewrite (validCodes_not_any Hok ch Hvh).
  replace (length (MO_Immediate cl :: Operands Lo) <=? 4)%nat with true
    by (symmetry; apply Nat.leb_le; cbn [length]; lia).
  rewrite Nat.eqb_refl. cbn [negb getImm].
  rewrite (loop_no_terminator pre Hpre) by lia.
  reflexivity.
Qed.

Lemma reversedBranches_native (c : Z) (Opc : Opcode) :
  In (c, Opc) reversedBranches ->
  exists c', In (c, c') invertPairs /\ In (c', Opc) nativeBranches.
Proof.
  unfold reversedBranches, invertPairs, nativeBranches. cbn [In].
  intros H.
  repeat (destruct H as [H|H]); try contradiction;
    inversion H; subst; eexists; split; auto 15.
Qed.

(** X11.  The native codes are closed under reversal: a reversed tuple
    of a native code and two registers is accepted by [InsertBranch],
    which appends the opposite branch, BEQ for NE, BNE for EQ, BGE for
    LT, BLT for GE, BGEU for LT|U and BLTU for GE|U, on the same
    registers. *)
Theorem ReverseBranchCondition_InsertBranch (Hok : CondCodeMasks_ok)
    (MBB : MachineBasicBlock) (T : MBBRef) (c : Z) (Opc : Opcode)
    (r1 r2 : Z) (d1 d2 : bool) (rest : list MachineOperand) :
  In (c, Opc) reversedBranches ->
  (length rest <= 1)%nat ->
  exists Cond',
    ReverseBranchCondition
      (MO_Immediate c :: MO_Register r1 d1 :: MO_Register r2 d2 :: rest)
    = Ok (false, Cond') /\
    InsertBranch MBB (Some T) None Cond'
    = Ok (1, mkMBB (Insts MBB ++
                      [mkMI Opc [MO_Register r1 false; MO_Register r2 false;
                                 MO_MachineBasicBlock T]])
                   (LayoutSuccessor MBB)).
Proof.
  intros Hin Hlen.
  destruct (reversedBranches_native c Opc Hin) as [c' [Hp Hn]].
  eexists. split.
  - apply (ReverseBranchCondition_pair Hok c c'); [exact Hp|cbn [length]; lia].
  - apply (InsertBranch_native Hok MBB T None c' Opc); assumption.
Qed.

Lemma syntheticBranches_codes (Hok : CondCodeMasks_ok) (c : Z) (Opc : Opcode)
    (a b : MachineOperand) (T : MBBRef) :
  In (c, Opc) syntheticBranches ->
  In c validCodes /\
  In c syntheticCodes /\
  isDebugValue (mkMI Opc [a; b; MO_MachineBasicBlock T]) = false /\
  isBranch (mkMI Opc [a; b; MO_MachineBasicBlock T])
  = Ok (Some (c, MO_MachineBasicBlock T)) /\
  exists c', In (c, c') invertPairs /\ In c' syntheticCodes.
Proof.
  unfold syntheticBranches, validCodes, syntheticCodes, invertPairs.
  cbn [In]. intros H.
  repeat (destruct H as [H|H]); try contradiction;
    inversion H; subst;
    (split; [auto 15|]); (split; [auto 15|]); (split; [reflexivity|]);
    (split; [reflexivity|]);
    eexists; split; auto 15.
Qed.

(** X12.  A block that ends with one of the branches BGT, BGTU, BLE,
    BLEU is analysed by [AnalyzeBranch], but the tuple it returns cannot
    be inserted again: [InsertBranch] is fatal with
    InvalidConditionForInsert on it, and also on its reversal. *)
Theorem AnalyzeBranch_InsertBranch_synthetic (Hok : CondCodeMasks_ok)
    (pre : list MachineInstr) (c : Z) (Opc : Opcode) (r1 r2 : Z)
    (d1 d2 : bool) (T : MBBRef) (Succ : option MBBRef)
    (AllowModify : bool) :
  In (c, Opc) syntheticBranches ->
  NoTrailingTerminator pre ->
  isUnpredicatedTerminator
    (mkMI Opc [MO_Register r1 d1; MO_Register r2 d2; MO_MachineBasicBlock T])
  = true ->
  exists st,
    AnalyzeBranch
      (mkMBB (pre ++ [mkMI Opc [MO_Register r1 d1; MO_Register r2 d2;
                                MO_MachineBasicBlock T]]) Succ)
      None None [] AllowModify
    = Some (Ok (false, st)) /\
    stTBB st = Some T /\
    (forall MBB2 FBB,
        InsertBranch MBB2 (stTBB st) FBB (stCond st)
        = Abort InvalidConditionForInsert) /\
    exists Cond',
      ReverseBranchCondition (stCond st) = Ok (false, Cond') /\
      forall MBB2 FBB,
        InsertBranch MBB2 (stTBB st) FBB Cond'
        = Abort InvalidConditionForInsert.
Proof.
  intros Hin Hpre Ht.
  destruct (syntheticBranches_codes Hok c Opc (MO_Register r1 d1)
              (MO_Register r2 d2) T Hin) as [Hv [Hs [Hd [Hb [c' [Hp Hs']]]]]].
  eexists. split; [|split; [|split]].
  - unfold AnalyzeBranch. cbn [Insts]. rewrite length_snoc.
    rewrite (loop_branch _ _ pre [] _ _ _ _ _ c T Hd Ht Hb).
    rewrite (validCodes_not_any Hok c Hv).
    rewrite (loop_no_terminator pre Hpre) by lia.
    reflexivity.
  - reflexivity.
  - intros MBB2 FBB. cbn [stTBB stCond Operands].
    apply InsertBranch_not_native; [|cbn [length]; lia].
    destruct (nativeCodes_not_synthetic Hok c Hs) as [Hu Hn].
    rewrite Hu. exact Hn.
  - cbn [stTBB stCond Operands].
    eexists. split.
    + apply (ReverseBranchCondition_pair Hok c c'); [exact Hp|cbn [length]; lia].
    + intros MBB2 FBB.
      apply InsertBranch_not_native; [|cbn [length]; lia].
      destruct (nativeCodes_not_synthetic Hok c' Hs') as [Hu Hn].
      rewrite Hu. exact Hn.
Qed.



(** ** getOpcodeForOffset *)

(** X14.  For a 64-bit offset, [getOpcodeForOffset] returns the opcode
    it is given exactly when the offset fits 20 signed bits, and 0
    otherwise; the unsigned 12-bit test adds no offset to those. *)
Theorem getOpcodeForOffset_range (Opc : Opcode) (Offset : Z) :
  - 2 ^ 63 <= Offset < 2 ^ 63 ->
  (- 2 ^ 19 <= Offset < 2 ^ 19 -> getOpcodeForOffset Opc Offset = Some Opc) /\
  (Offset < - 2 ^ 19 \/ 2 ^ 19 <= Offset -> getOpcodeForOffset Opc Offset = None).
Proof.
  intros H64. unfold getOpcodeForOffset, isUInt, to_uint64, isInt.
  change (20 - 1) with 19. rewrite !andb_diag.
  split.
  - intros Hr.
    destruct (Offset mod 2 ^ 64 <? 2 ^ 12); [reflexivity|].
    replace (- 2 ^ 19 <=? Offset) with true by (symmetry; apply Z.leb_le; lia).
    replace (Offset <? 2 ^ 19) with true by (symmetry; apply Z.ltb_lt; lia).
    reflexivity.
  - intros Hr.
    replace (Offset mod 2 ^ 64 <? 2 ^ 12) with false.
    + destruct Hr as [Hr|Hr].
      * replace (- 2 ^ 19 <=? Offset) with false
          by (symmetry; apply Z.leb_gt; lia).
        reflexivity.
      * replace (Offset <? 2 ^ 19) with false
          by (symmetry; apply Z.ltb_ge; lia).
        rewrite andb_false_r. reflexivity.
    + symmetry. apply Z.ltb_ge.
      destruct (Z.neg_nonneg_cases Offset) as [Hn|Hp].
      * replace (Offset mod 2 ^ 64) with (Offset + 2 ^ 64); [lia|].
        apply Z.mod_unique with (q := -1); lia.
      * rewrite Z.mod_small by lia. lia.
Qed.

(** ** loadImmediate: the two immediates as a number *)

Lemma split_recombine (v : Z) :
  ((v / 2 ^ 12) mod 2 ^ 20) * 2 ^ 12 + v mod 2 ^ 12 = v mod 2 ^ 32.
Proof.
  change (2 ^ 32) with (2 ^ 12 * 2 ^ 20).
  rewrite Z.rem_mul_r by lia. lia.
Qed.

(** X15.  For a value [v] that fits 32 but not 12 signed bits, the
    immediates [hi] of the load-upper-immediate and [lo] of the
    lower-immediate instruction are a 20-bit and a 12-bit unsigned
    number, and [hi * 2^12 + lo] is [v] modulo 2^32 when bit 11 of [v]
    is set and [v + 2^12] modulo 2^32 when it is clear. *)
Theorem loadImmediate_recompose (MBB : MachineBasicBlock) (MBBI : nat)
    (RegInfo : MachineRegisterInfo) (v : Z) :
  isInt 32 v = true -> isInt 12 v = false ->
  exists Reg RegInfo' hi lo,
    loadImmediate MBB MBBI RegInfo v
    = Ok (mkMBB (firstn MBBI (Insts MBB)
                   ++ [mkMI LUI [MO_Register Reg true; MO_Immediate hi];
                       mkMI LLI [MO_Register Reg true; MO_Register zero false;
                                 MO_Immediate lo]]
                   ++ skipn MBBI (Insts MBB))
                (LayoutSuccessor MBB),
          RegInfo', Reg) /\
    0 <= hi < 2 ^ 20 /\
    0 <= lo < 2 ^ 12 /\
    hi * 2 ^ 12 + lo
    = (if Z.testbit v 11 then v else v + 2 ^ 12) mod 2 ^ 32.
Proof.
  intros H32 H12.
  destruct (loadImmediate_two MBB MBBI RegInfo v H12 H32) as [Reg [RI' [_ E]]].
  eexists. eexists. eexists. eexists. split; [exact E|].
  change 0xFFFFF with (Z.ones 20). change 0xFFF with (Z.ones 12).
  rewrite !Z.land_ones by lia. rewrite Z.shiftr_div_pow2 by lia.
  split; [destruct (Z.testbit v 11); apply Z.mod_pos_bound; lia|].
  split; [apply Z.mod_pos_bound; lia|].
  destruct (Z.testbit v 11).
  - apply split_recombine.
  - rewrite <- split_recombine.
    replace (v + 2 ^ 12) with (v + 1 * 2 ^ 12) by lia.
    rewrite Z.div_add, Z.mod_add by lia. reflexivity.
Qed.

(** ** isSimpleMove: the instructions it does classify *)

Lemma to_unsigned_to_int (R : Z) :
  0 <= R < 2 ^ 32 -> to_unsigned (to_int R) = R.
Proof.
  intros HR. unfold to_unsigned, to_int.
  rewrite Zminus_mod_idemp_l.
  replace (R + 2 ^ 31 - 2 ^ 31) with R by lia.
  apply Z.mod_small. exact HR.
Qed.

(** X16.  An instruction whose opcode carries the flag asked for and
    whose operands are a register, a frame index, the immediate 0 and
    register 0 is classified: [isLoadFromStackSlot] (for the load flag)
    and [isStoreToStackSlot] (for the store flag) return its register,
    unchanged by the passage through [int] also for a virtual register
    number, and set [FrameIndex] to its frame index. *)
Theorem isSimpleMove_classifies (MI : MachineInstr) (FrameIndex : Z)
    (R Index : Z) (d d' : bool) (rest : list MachineOperand) :
  0 <= R < 2 ^ 32 ->
  Operands MI
  = MO_Register R d :: MO_FrameIndex Index :: MO_Immediate 0
      :: MO_Register 0 d' :: rest ->
  (Z.land (TSFlags (getOpcode MI)) SimpleLoad <> 0 ->
   isLoadFromStackSlot MI FrameIndex = Ok (R, Index)) /\
  (Z.land (TSFlags (getOpcode MI)) SimpleStore <> 0 ->
   isStoreToStackSlot MI FrameIndex = Ok (R, Index)).
Proof.
  intros HR Hops.
  unfold isLoadFromStackSlot, isStoreToStackSlot, isSimpleMove, getOperand.
  rewrite Hops.
  split; intros Hf; apply Z.eqb_neq in Hf; rewrite Hf;
    cbn; rewrite (to_unsigned_to_int R HR); reflexivity.
Qed.

(** ** What a successful call tells *)

(** X17.  Whenever [InsertBranch] returns, it returns 1: the true target
    was set, the false target was not, the tuple had at most four
    components, and exactly one instruction was appended to the block, a
    branch to the true target. *)
Theorem InsertBranch_returns_one (MBB MBB1 : MachineBasicBlock)
    (TBB FBB : option MBBRef) (Cond : list MachineOperand) (k : Z) :
  InsertBranch MBB TBB FBB Cond = Ok (k, MBB1) ->
  k = 1 /\ FBB = None /\ (length Cond <= 4)%nat /\
  exists T MI c,
    TBB = Some T /\
    MBB1 = mkMBB (Insts MBB ++ [MI]) (LayoutSuccessor MBB) /\
    isBranch MI = Ok (Some (c, MO_MachineBasicBlock T)).
Proof.
  intros H.
  destruct TBB as [T|]; [|discriminate H].
  destruct (InsertBranch_appends _ _ _ _ _ _ H) as [Hk [MI [E [Hd [c Hb]]]]].
  split; [exact Hk|].
  assert (HF : FBB = None).
  { destruct FBB as [F|]; [|reflexivity]. exfalso.
    unfold InsertBranch, buildCondBranch in H.
    destruct (length Cond <=? 4)%nat; cbn [assert bind] in H; [|discriminate H].
    destruct Cond as [|C0 Cond']; [discriminate H|].
    repeat match type of H with
    | context [bind ?r _] => destruct r; cbn [bind] in H
    | context [if ?b then _ else _] => destruct b
    end; discriminate H. }
  split; [exact HF|]. split.
  - unfold InsertBranch in H.
    destruct (length Cond <=? 4)%nat eqn:Hl; [|discriminate H].
    apply Nat.leb_le. exact Hl.
  - exists T, MI, c. auto.
Qed.

(** X18.  Whenever [ReverseBranchCondition] returns, it returns false:
    the tuple had at most four components, its first component was an
    immediate holding one of the ten codes, and the tuple it leaves
    differs from it in that component only, which holds the partner of
    the code. *)
Theorem ReverseBranchCondition_returns (Cond Cond' : list MachineOperand)
    (b : bool) :
  ReverseBranchCondition Cond = Ok (b, Cond') ->
  b = false /\ (length Cond <= 4)%nat /\
  exists c c' ops,
    Cond = MO_Immediate c :: ops /\ Cond' = MO_Immediate c' :: ops /\
    In (c, c') invertPairs.
Proof.
  unfold ReverseBranchCondition, setCode.
  destruct (length Cond <=? 4)%nat eqn:Hl; cbn [assert bind]; [|discriminate].
  apply Nat.leb_le in Hl.
  destruct Cond as [|C0 ops]; cbn [at_ nth_error bind]; [discriminate|].
  destruct C0 as [? ?|c|?|?]; cbn [getImm setImm bind tl]; try discriminate.
  unfold invertPairs. cbn [In].
  repeat match goal with
  | |- context [Z.eqb ?a ?x] => destruct (Z.eqb_spec a x)
  end; intros H; inversion H; subst;
    (split; [reflexivity|]); (split; [exact Hl|]);
    eexists; eexists; eexists;
    (split; [reflexivity|]); (split; [reflexivity|]); auto 15.
Qed.

(** ** Where the fatal results come from *)

Lemma In_firstn (A : Type) (x : A) (k : nat) (l : list A) :
  In x (firstn k l) -> In x l.
Proof.
  intros H. rewrite <- (firstn_skipn k l). apply in_or_app. left. exact H.
Qed.

Lemma AnalyzeBranch_loop_fatal (fuel : nat) :
  forall (AM : bool) (MBB : MachineBasicBlock) (I : nat)
         (TBB FBB : option MBBRef) (Cond : list MachineOperand) (e : Fatal),
    (I <= length (Insts MBB))%nat ->
    branchShape TBB FBB Cond ->
    AnalyzeBranch_loop fuel AM MBB I TBB FBB Cond = Some (Abort e) ->
    e = TooManyComponents \/
    exists MI, In MI (Insts MBB) /\ isBranch MI = Abort e.
Proof.
  induction fuel as [|fuel IH]; intros AM MBB I TBB FBB Cond e HI Hsh H;
    [discriminate|].
  cbn [AnalyzeBranch_loop] in H.
  destruct (I =? 0)%nat eqn:HI0; [discriminate H|].
  apply Nat.eqb_neq in HI0.
  destruct (nth_error (Insts MBB) (I - 1)) as [MI|] eqn:Hnth.
  2:{ apply nth_error_None in Hnth. lia. }
  assert (HIn : In MI (Insts MBB)) by (eapply nth_error_In; exact Hnth).
  destruct (isDebugValue MI).
  { eapply IH; [ | |exact H]; [lia|exact Hsh]. }
  destruct (negb (isUnpredicatedTerminator MI)); [discriminate H|].
  destruct (isBranch MI) as [[[c t]|]|e0] eqn:Hb.
  3:{ inversion H; subst. right. exists MI. auto. }
  2:{ discriminate H. }
  destruct t as [? ?|?|?|Dest]; try discriminate H.
  destruct (Z.eqb_spec c CCMASK_ANY) as [Ec|Ec].
  - destruct (negb AM).
    + eapply IH; [ | |exact H]; [lia|].
      destruct Hsh as [[E1 E2]|[T [c0 [ops [E1 [E2 [E3 E4]]]]]]].
      * left. auto.
      * right. exists Dest, c0, ops. auto.
    + destruct (isLayoutSuccessor (eraseAfter MBB (I - 1)) Dest).
      * destruct (IH _ _ _ _ _ _ _ (Nat.le_refl _)
                    (or_introl (conj eq_refl eq_refl)) H)
          as [E|[MI' [HIn' Hb']]]; [left; exact E|].
        right. exists MI'. split; [|exact Hb'].
        rewrite eraseFromParent_eraseAfter_Insts in HIn'.
        eapply In_firstn. exact HIn'.
      * assert (Hlen : (I - 1 <= length (Insts (eraseAfter MBB (I - 1))))%nat).
        { cbn [eraseAfter Insts]. rewrite length_firstn. lia. }
        destruct (IH _ _ _ _ _ _ _ Hlen
                    (or_introl (conj eq_refl eq_refl)) H)
          as [E|[MI' [HIn' Hb']]]; [left; exact E|].
        right. exists MI'. split; [|exact Hb'].
        cbn [eraseAfter Insts] in HIn'.
        eapply In_firstn. exact HIn'.
  - destruct (isBranch_code _ _ _ Hb) as [E|Hv]; [contradiction|].
    destruct Cond as [|C0 Cond'].
    + eapply IH; [ | |exact H]; [lia|].
      right. exists Dest, c, (firstn (getNumExplicitOperands MI) (Operands MI)).
      auto.
    + destruct (negb (length (C0 :: Cond') <=? 4)%nat);
        [inversion H; subst; left; reflexivity|].
      destruct Hsh as [[E1 E2]|[T [c0 [ops [E1 [E2 [E3 E4]]]]]]];
        [discriminate E1|].
      inversion E2; subst.
      destruct (negb (T =? Dest)%nat); [discriminate H|].
      cbn [getImm] in H.
      destruct (to_unsigned c0 =? c);
        (eapply IH; [ | |exact H]; [lia|]);
        right; exists T, c0, ops; auto.
Qed.

(** X19.  Called with parameters of one of the two shapes (in particular
    with none set), [AnalyzeBranch] is fatal only when a recorded tuple
    has more than four components, or when [isBranch] is fatal on an
    instruction of the block; its iterator never leaves the block and a
    recorded condition never lacks its true target. *)
Theorem AnalyzeBranch_fatal (MBB : MachineBasicBlock)
    (TBB FBB : option MBBRef) (Cond : list MachineOperand)
    (AllowModify : bool) (e : Fatal) :
  branchShape TBB FBB Cond ->
  AnalyzeBranch MBB TBB FBB Cond AllowModify = Some (Abort e) ->
  e = TooManyComponents \/
  exists MI, In MI (Insts MBB) /\ isBranch MI = Abort e.
Proof.
  intros Hsh H. unfold AnalyzeBranch in H.
  exact (AnalyzeBranch_loop_fatal _ _ _ _ _ _ _ _ (Nat.le_refl _) Hsh H).
Qed.

Lemma stripBranches_fatal (r : list MachineInstr) (e : Fatal) :
  stripBranches r = Abort e ->
  exists MI, In MI r /\ isDebugValue MI = false /\ isBranch MI = Abort e.
Proof.
  induction r as [|MI r IH]; cbn [stripBranches]; [discriminate|].
  destruct (isDebugValue MI) eqn:Hd.
  - destruct (stripBranches r) as [[c0 r0]|e0]; cbn [bind]; [discriminate|].
    intros H. inversion H; subst.
    destruct (IH eq_refl) as [MI' [HIn H']].
    exists MI'. split; [right; exact HIn|exact H'].
  - destruct (isBranch MI) as [[[c0 Target]|]|e0] eqn:Hb.
    + destruct (negb (isMBB Target)); [discriminate|].
      destruct (stripBranches r) as [[c1 r1]|e1]; cbn [bind]; [discriminate|].
      intros H. inversion H; subst.
      destruct (IH eq_refl) as [MI' [HIn H']].
      exists MI'. split; [right; exact HIn|exact H'].
    + discriminate.
    + intros H. inversion H; subst.
      exists MI. split; [left; reflexivity|]. auto.
Qed.

(** X20.  [RemoveBranch] is fatal only when [isBranch] is fatal on an
    instruction of the block that is not a debug value. *)
Theorem RemoveBranch_fatal (MBB : MachineBasicBlock) (e : Fatal) :
  RemoveBranch MBB = Some (Abort e) ->
  exists MI,
    In MI (Insts MBB) /\ isDebugValue MI = false /\ isBranch MI = Abort e.
Proof.
  rewrite RemoveBranch_spec.
  destruct (stripBranches (rev (Insts MBB))) as [[c r]|e0] eqn:Hs;
    intros H; inversion H; subst.
  destruct (stripBranches_fatal _ _ Hs) as [MI [HIn H']].
  exists MI. split; [|exact H'].
  apply in_rev. exact HIn.
Qed.

(** ** AnalyzeBranch on a conditional branch followed by a jump, with or
       without modification *)

(** X21.  A block that ends with a conditional branch to [L1] followed
    by an unconditional jump to [L2], with no terminator above the two:
    [AnalyzeBranch] returns false with the true target [L1] and the
    condition of the branch.  The false target is [L2] and the block is
    untouched, unless modification is allowed and [L2] is the layout
    successor: then the jump is erased and the false target is unset. *)
Theorem AnalyzeBranch_cond_jump (Hok : CondCodeMasks_ok)
    (pre : list MachineInstr) (B Jmp : MachineInstr) (L1 L2 : MBBRef)
    (Succ : option MBBRef) (AllowModify : bool) :
  NoTrailingTerminator pre ->
  isUnpredicatedTerminator B = true -> condBranchTo B L1 ->
  isUnpredicatedTerminator Jmp = true -> jumpTo Jmp L2 ->
  exists c,
    isBranch B = Ok (Some (c, MO_MachineBasicBlock L1)) /\
    AnalyzeBranch (mkMBB (pre ++ [B; Jmp]) Succ) None None [] AllowModify
    = Some (Ok (false,
         if AllowModify && isLayoutSuccessor (mkMBB (pre ++ [B; Jmp]) Succ) L2
         then mkBranchState (mkMBB (pre ++ [B]) Succ) (Some L1) None
                (MO_Immediate c :: Operands B)
         else mkBranchState (mkMBB (pre ++ [B; Jmp]) Succ) (Some L1) (Some L2)
                (MO_Immediate c :: Operands B))).
Proof.
  intros Hpre HBt HBc HJt HJc.
  destruct (condBranchTo_isBranch B L1 HBc) as [HBd [_ [c [Hv HBb]]]].
  destruct (jumpTo_isBranch Jmp L2 HJc) as [HJd HJb].
  exists c. split; [exact HBb|].
  unfold AnalyzeBranch. cbn [Insts].
  replace (pre ++ [B; Jmp]) with ((pre ++ [B]) ++ [Jmp])
    by (rewrite <- app_assoc; reflexivity).
  rewrite length_snoc.
  rewrite (loop_branch _ _ _ _ _ _ _ _ _ CCMASK_ANY L2 HJd HJt HJb).
  rewrite Z.eqb_refl.
  unfold isLayoutSuccessor. cbn [LayoutSuccessor].
  rewrite length_snoc.
  destruct AllowModify; cbn [negb andb].
  - destruct (match Succ with Some Next => (Next =? L2)%nat | None => false end).
    + rewrite app_nil_r.
      replace (mkMBB (pre ++ [B]) Succ) with (mkMBB (pre ++ B :: []) Succ)
        by reflexivity.
      rewrite (loop_branch _ _ _ _ _ _ _ _ _ c L1 HBd HBt HBb).
      rewrite (validCodes_not_any Hok c Hv).
      unfold getNumExplicitOperands.
      rewrite (loop_no_terminator pre Hpre) by lia.
      reflexivity.
    + rewrite snoc_app.
      rewrite (loop_branch _ _ _ _ _ _ _ _ _ c L1 HBd HBt HBb).
      rewrite (validCodes_not_any Hok c Hv).
      rewrite (loop_no_terminator pre Hpre) by lia.
      rewrite <- snoc_app. reflexivity.
  - rewrite snoc_app.
    rewrite (loop_branch _ _ _ _ _ _ _ _ _ c L1 HBd HBt HBb).
    rewrite (validCodes_not_any Hok c Hv).
    rewrite (loop_no_terminator pre Hpre) by lia.
    rewrite <- snoc_app. reflexivity.
Qed.

End Properties.

(** * The properties on the concrete backend *)

Lemma Sample_masks_ok : @CondCodeMasks_ok Sample.masks.
Proof.
  constructor.
  - repeat constructor; cbn; lia.
  - unfold validCodes. cbn.
    repeat (constructor; [cbn; intuition discriminate|]).
    constructor.
  - unfold validCodes. cbn. intuition discriminate.
Qed.

Lemma Sample_branches_terminate (MI : MachineInstr) :
  isCondBranchOpcode (getOpcode MI) = true ->
  @isUnpredicatedTerminator Sample.target MI = true.
Proof.
  cbn. destruct (getOpcode MI); cbn; congruence.
Qed.

Lemma InsertBranch_AnalyzeBranch_roundtrip_witness :
  exists MBB',
    @InsertBranch Sample.masks (mkMBB [] None) (Some 7%nat) None
      [MO_Immediate 4; MO_Register 1 false; MO_Register 2 false]
    = Ok (1, MBB') /\
    @AnalyzeBranch Sample.masks Sample.target MBB' None None [] false
    = Some (Ok (false,
         mkBranchState MBB' (Some 7%nat) None
           [MO_Immediate 4; MO_Register 1 false; MO_Register 2 false;
            MO_MachineBasicBlock 7])).
Proof.
  apply (@InsertBranch_AnalyzeBranch_roundtrip Sample.masks Sample.target
           Sample_masks_ok 4 1 2 false false [] 7%nat None false).
  - exact Sample_branches_terminate.
  - cbn. auto.
  - cbn. lia.
Defined.

Lemma loadImmediate_count_witness :
  (exists Reg RegInfo' MBB',
      createVirtualRegister [] GR32BitRegClass = (Reg, RegInfo') /\
      @loadImmediate Sample.target (mkMBB [Sample.addi 5 5 1] None) 0 [] 100
      = Ok (MBB', RegInfo', Reg) /\
      Insts MBB'
      = [mkMI ADDI [MO_Register Reg true; MO_Register 1 false; MO_Immediate 100];
         Sample.addi 5 5 1] /\
      length (Insts MBB') = 2%nat) /\
  (exists Reg RegInfo' MBB' hi lo,
      createVirtualRegister [] GR32BitRegClass = (Reg, RegInfo') /\
      @loadImmediate Sample.target (mkMBB [Sample.addi 5 5 1] None) 0 [] 5000
      = Ok (MBB', RegInfo', Reg) /\
      Insts MBB'
      = [mkMI LUI [MO_Register Reg true; MO_Immediate hi];
         mkMI LLI [MO_Register Reg true; MO_Register 1 false; MO_Immediate lo];
         Sample.addi 5 5 1] /\
      length (Insts MBB') = 3%nat) /\
  @loadImmediate Sample.target (mkMBB [Sample.addi 5 5 1] None) 0 [] (2 ^ 31)
  = Abort ConstantTooLarge.
Proof.
  split; [|split].
  - apply (proj1 (@loadImmediate_count Sample.target
                    (mkMBB [Sample.addi 5 5 1] None) 0 [] 100)). lia.
  - apply (proj1 (proj2 (@loadImmediate_count Sample.target
                           (mkMBB [Sample.addi 5 5 1] None) 0 [] 5000))). lia.
  - apply (proj2 (proj2 (@loadImmediate_count Sample.target
                           (mkMBB [Sample.addi 5 5 1] None) 0 [] (2 ^ 31)))). lia.
Defined.

(** At -2^31 the absolute value is 2^31, yet two instructions are
    inserted. *)
Lemma loadImmediate_count_counterexample :
  2 ^ 31 <= Z.abs (- 2 ^ 31) /\
  @loadImmediate Sample.target (mkMBB [] None) 0 [] (- 2 ^ 31)
  = Ok (mkMBB [mkMI LUI [MO_Register (2 ^ 31) true; MO_Immediate 0x80001];
               mkMI LLI [MO_Register (2 ^ 31) true; MO_Register 1 false;
                         MO_Immediate 0]]
              None,
        [GR32BitRegClass], 2 ^ 31).
Proof.
  split; [vm_compute; discriminate|reflexivity].
Qed.

Lemma loadImmediate_split_witness :
  exists Reg RegInfo',
    @loadImmediate Sample.target (mkMBB [] None) 0 [] (-5000)
    = Ok (mkMBB [mkMI LUI [MO_Register Reg true; MO_Immediate 0xFFFFE];
                 mkMI LLI [MO_Register Reg true; MO_Register 1 false;
                           MO_Immediate 0xC78]]
                None,
          RegInfo', Reg).
Proof.
  apply (proj1 (@loadImmediate_split Sample.target (mkMBB [] None) 0 [])
           (-5000)); reflexivity.
Defined.

Lemma ReverseBranchCondition_involution_witness :
  @ReverseBranchCondition Sample.masks
    [MO_Immediate 4; MO_Register 1 false; MO_Register 2 false]
  = Ok (false, [MO_Immediate 10; MO_Register 1 false; MO_Register 2 false]).
Proof.
  apply (proj1 (@ReverseBranchCondition_involution Sample.masks Sample_masks_ok)).
  - cbn. auto 15.
  - cbn. lia.
Defined.

Lemma InsertBranch_shape_witness :
  @InsertBranch Sample.masks (mkMBB [] None) (Some 7%nat) None
    [MO_Immediate 5; MO_Register 1 false; MO_Register 2 false]
  = Ok (1, mkMBB [Sample.br BLTU 1 2 7] None) /\
  @InsertBranch Sample.masks (mkMBB [] None) (Some 7%nat) (Some 8%nat)
    [MO_Immediate 5; MO_Register 1 false; MO_Register 2 false]
  = Abort InvalidBranchShape /\
  @InsertBranch Sample.masks (mkMBB [] None) (Some 7%nat) None
    [MO_Immediate 12; MO_Register 1 false; MO_Register 2 false]
  = Abort InvalidConditionForInsert.
Proof.
  split; [|split].
  - apply (proj1 (proj2 (proj2 (@InsertBranch_shape Sample.masks Sample_masks_ok
                                  (mkMBB [] None) 7%nat))) 5 BLTU 1 false 2 false []).
    + cbn. auto 15.
    + cbn. lia.
  - apply (proj1 (proj2 (proj2 (@InsertBranch_shape Sample.masks Sample_masks_ok
                                  (mkMBB [] None) 7%nat))) 5 BLTU 1 false 2 false []).
    + cbn. auto 15.
    + cbn. lia.
  - apply (proj2 (proj2 (proj2 (@InsertBranch_shape Sample.masks Sample_masks_ok
                                  (mkMBB [] None) 7%nat)))).
    + left. cbn. auto.
    + cbn. lia.
Defined.

(** A false target together with the GT code: the fatal condition is
    the one of the code, not the one of the shape. *)
Lemma InsertBranch_shape_counterexample :
  @InsertBranch Sample.masks (mkMBB [] None) (Some 7%nat) (Some 8%nat)
    [MO_Immediate (@CCMASK_CMP_GT Sample.masks);
     MO_Register 1 false; MO_Register 2 false]
  = Abort InvalidConditionForInsert.
Proof. reflexivity. Qed.

Lemma AnalyzeBranch_fallthrough_witness :
  @AnalyzeBranch Sample.masks Sample.target
    (mkMBB [Sample.addi 5 5 1; Sample.jump 9; mkMI DBG_VALUE []] (Some 9%nat))
    (Some 3%nat) (Some 4%nat) [MO_Immediate 8] true
  = Some (Ok (false,
       mkBranchState (mkMBB [Sample.addi 5 5 1] (Some 9%nat)) None None [])).
Proof.
  apply (@AnalyzeBranch_fallthrough Sample.masks Sample.target
           [Sample.addi 5 5 1] [mkMI DBG_VALUE []] (Sample.jump 9) 9%nat).
  - exact (@NTT_stop Sample.target [] (Sample.addi 5 5 1) eq_refl eq_refl).
  - split; [reflexivity|]. exists []. reflexivity.
  - reflexivity.
  - repeat constructor.
Defined.

Lemma AnalyzeBranch_blt_jump_witness :
  @AnalyzeBranch Sample.masks Sample.target
    (mkMBB [Sample.addi 5 5 1; Sample.br BLT 1 2 7; Sample.jump 8] (Some 9%nat))
    None None [] false
  = Some (Ok (false,
       mkBranchState
         (mkMBB [Sample.addi 5 5 1; Sample.br BLT 1 2 7; Sample.jump 8]
                (Some 9%nat))
         (Some 7%nat) (Some 8%nat)
         [MO_Immediate 4; MO_Register 1 false; MO_Register 2 false;
          MO_MachineBasicBlock 7])).
Proof.
  apply (@AnalyzeBranch_blt_jump Sample.masks Sample.target Sample_masks_ok
           [Sample.addi 5 5 1] 1 2 false false 7%nat 8%nat (Some 9%nat) None None).
  - exact (@NTT_stop Sample.target [] (Sample.addi 5 5 1) eq_refl eq_refl).
  - reflexivity.
  - reflexivity.
Defined.

(** A block that ends with the branch-less-than and the jump, with
    another conditional branch above them: it cannot be analysed. *)
Lemma AnalyzeBranch_blt_jump_counterexample :
  @AnalyzeBranch Sample.masks Sample.target
    (mkMBB [Sample.br BEQ 3 4 6; Sample.br BLT 1 2 7; Sample.jump 8] None)
    None None [] false
  = Some (Ok (true,
       mkBranchState
         (mkMBB [Sample.br BEQ 3 4 6; Sample.br BLT 1 2 7; Sample.jump 8] None)
         (Some 7%nat) (Some 8%nat)
         [MO_Immediate 4; MO_Register 1 false; MO_Register 2 false;
          MO_MachineBasicBlock 7])).
Proof. reflexivity. Qed.

Lemma AnalyzeBranch_mixed_destinations_witness :
  exists st,
    @AnalyzeBranch Sample.masks Sample.target
      (mkMBB [Sample.br BEQ 3 4 6; Sample.br BNE 1 2 7; Sample.jump 8] None)
      None None [] true
    = Some (Ok (true, st)).
Proof.
  apply (@AnalyzeBranch_mixed_destinations Sample.masks Sample.target
           Sample_masks_ok [] [] [Sample.jump 8]
           (Sample.br BEQ 3 4 6) (Sample.br BNE 1 2 7) 6%nat 7%nat).
  - reflexivity.
  - split; [reflexivity|]. eexists. eexists. reflexivity.
  - reflexivity.
  - split; [reflexivity|]. eexists. eexists. reflexivity.
  - lia.
  - constructor.
  - constructor; [|constructor].
    apply (@Run_jump Sample.masks Sample.target (Sample.jump 8) 8%nat); [reflexivity|].
    split; [reflexivity|]. exists []. reflexivity.
Defined.

(** Two conditional branches to different blocks with a jump between
    them.  With modification allowed the lower branch is erased as dead
    code and the block is analysed; without modification the jump, which
    goes where the upper branch goes, replaces the recorded target and
    the block is analysed as well. *)
Lemma AnalyzeBranch_mixed_destinations_counterexample :
  @AnalyzeBranch Sample.masks Sample.target
    (mkMBB [Sample.br BEQ 3 4 6; Sample.jump 8; Sample.br BNE 1 2 7] None)
    None None [] true
  = Some (Ok (false,
       mkBranchState
         (mkMBB [Sample.br BEQ 3 4 6; Sample.jump 8] None)
         (Some 6%nat) (Some 8%nat)
         [MO_Immediate 8; MO_Register 3 false; MO_Register 4 false;
          MO_MachineBasicBlock 6])) /\
  @AnalyzeBranch Sample.masks Sample.target
    (mkMBB [Sample.br BEQ 3 4 6; Sample.jump 6; Sample.br BNE 1 2 7] None)
    None None [] false
  = Some (Ok (false,
       mkBranchState
         (mkMBB [Sample.br BEQ 3 4 6; Sample.jump 6; Sample.br BNE 1 2 7] None)
         (Some 6%nat) None
         [MO_Immediate 6; MO_Register 1 false; MO_Register 2 false;
          MO_MachineBasicBlock 7])).
Proof. split; reflexivity. Qed.

Lemma isSimpleMove_narrow_witness :
  (7 <> 0 /\
   @isLoadFromStackSlot Sample.target
     (mkMI LW [MO_Register 7 true; MO_FrameIndex 3; MO_Immediate 0;
               MO_Register 0 false]) 99
   = Ok (7, 3) /\
   Z.land (@TSFlags Sample.target LW) (@SimpleLoad Sample.target) <> 0) /\
  @isLoadFromStackSlot Sample.target
    (mkMI LW [MO_Register 7 true; MO_FrameIndex 3; MO_Immediate 4;
              MO_Register 0 false]) 99
  = Ok (0, 99).
Proof.
  split.
  - split; [lia|]. split; [reflexivity|].
    apply (proj1 (@isSimpleMove_narrow Sample.target
                    (mkMI LW [MO_Register 7 true; MO_FrameIndex 3;
                              MO_Immediate 0; MO_Register 0 false]) 99) 7 3);
      [reflexivity|lia].
  - apply (proj2 (proj2 (@isSimpleMove_narrow Sample.target
                    (mkMI LW [MO_Register 7 true; MO_FrameIndex 3;
                              MO_Immediate 4; MO_Register 0 false]) 99)) 4);
      [reflexivity|lia].
Defined.

(** * The further properties on the concrete backend *)

Lemma RemoveBranch_count_witness :
  @RemoveBranch Sample.masks Sample.target
    (mkMBB [Sample.addi 5 5 1; Sample.br BLT 1 2 7; mkMI DBG_VALUE [];
            Sample.jump 8] None)
  <> None /\
  forall n MBB',
    @RemoveBranch Sample.masks Sample.target
      (mkMBB [Sample.addi 5 5 1; Sample.br BLT 1 2 7; mkMI DBG_VALUE [];
              Sample.jump 8] None)
    = Some (Ok (n, MBB')) ->
    0 <= n /\
    Z.of_nat (length (Insts MBB')) + n = 4 /\
    LayoutSuccessor MBB' = None.
Proof.
  apply (@RemoveBranch_count Sample.masks Sample.target
           (mkMBB [Sample.addi 5 5 1; Sample.br BLT 1 2 7; mkMI DBG_VALUE [];
                   Sample.jump 8] None)).
  cbn. lia.
Defined.

Lemma RemoveBranch_keeps_witness :
  filter (fun MI => negb (@isBlockBranch Sample.masks Sample.target MI))
    [Sample.addi 5 5 1; mkMI DBG_VALUE []]
  = filter (fun MI => negb (@isBlockBranch Sample.masks Sample.target MI))
      [Sample.addi 5 5 1; Sample.br BLT 1 2 7; mkMI DBG_VALUE [];
       Sample.jump 8].
Proof.
  apply (@RemoveBranch_keeps Sample.masks Sample.target
           (mkMBB [Sample.addi 5 5 1; Sample.br BLT 1 2 7; mkMI DBG_VALUE [];
                   Sample.jump 8] None)
           (mkMBB [Sample.addi 5 5 1; mkMI DBG_VALUE []] None) 2).
  reflexivity.
Defined.

Lemma RemoveBranch_idempotent_witness :
  @RemoveBranch Sample.masks Sample.target
    (mkMBB [Sample.addi 5 5 1; mkMI DBG_VALUE []] None)
  = Some (Ok (0, mkMBB [Sample.addi 5 5 1; mkMI DBG_VALUE []] None)).
Proof.
  apply (@RemoveBranch_idempotent Sample.masks Sample.target
           (mkMBB [Sample.addi 5 5 1; Sample.br BLT 1 2 7; mkMI DBG_VALUE [];
                   Sample.jump 8] None)
           (mkMBB [Sample.addi 5 5 1; mkMI DBG_VALUE []] None) 2).
  reflexivity.
Defined.

Lemma RemoveBranch_InsertBranch_witness :
  @RemoveBranch Sample.masks Sample.target
    (mkMBB [Sample.addi 5 5 1; Sample.br BLT 1 2 7; Sample.jump 8] None)
  = Some (Ok (2, mkMBB [Sample.addi 5 5 1] None)).
Proof.
  apply (@RemoveBranch_InsertBranch Sample.masks Sample.target
           (mkMBB [Sample.addi 5 5 1; Sample.br BLT 1 2 7] None)
           (mkMBB [Sample.addi 5 5 1; Sample.br BLT 1 2 7; Sample.jump 8] None)
           (mkMBB [Sample.addi 5 5 1] None) 8%nat [] 1 1).
  - reflexivity.
  - reflexivity.
Defined.

Lemma AnalyzeBranch_prefix_witness :
  (exists k,
      [Sample.addi 5 5 1]
      = firstn k [Sample.addi 5 5 1; Sample.jump 9; Sample.br BNE 1 2 7]) /\
  Some 9%nat = Some 9%nat.
Proof.
  apply (@AnalyzeBranch_prefix Sample.masks Sample.target
           (mkMBB [Sample.addi 5 5 1; Sample.jump 9; Sample.br BNE 1 2 7]
                  (Some 9%nat))
           None None [] true false
           (mkBranchState (mkMBB [Sample.addi 5 5 1] (Some 9%nat))
              None None [])).
  reflexivity.
Defined.

Lemma AnalyzeBranch_shape_witness :
  @branchShape Sample.masks (Some 7%nat) (Some 8%nat)
    [MO_Immediate 4; MO_Register 1 false; MO_Register 2 false;
     MO_MachineBasicBlock 7].
Proof.
  apply (@AnalyzeBranch_shape Sample.masks Sample.target
           (mkMBB [Sample.addi 5 5 1; Sample.br BLT 1 2 7; Sample.jump 8] None)
           None None [] false false
           (mkBranchState
              (mkMBB [Sample.addi 5 5 1; Sample.br BLT 1 2 7; Sample.jump 8]
                     None)
              (Some 7%nat) (Some 8%nat)
              [MO_Immediate 4; MO_Register 1 false; MO_Register 2 false;
               MO_MachineBasicBlock 7])).
  - left. split; reflexivity.
  - reflexivity.
Defined.

Lemma AnalyzeBranch_no_terminator_witness :
  @AnalyzeBranch Sample.masks Sample.target
    (mkMBB [Sample.addi 5 5 1; mkMI DBG_VALUE []] None)
    (Some 3%nat) (Some 4%nat) [MO_Immediate 8] true
  = Some (Ok (false,
       mkBranchState (mkMBB [Sample.addi 5 5 1; mkMI DBG_VALUE []] None)
         (Some 3%nat) (Some 4%nat) [MO_Immediate 8])).
Proof.
  apply (@AnalyzeBranch_no_terminator Sample.masks Sample.target
           [Sample.addi 5 5 1; mkMI DBG_VALUE []]).
  apply (@NTT_debug Sample.target [Sample.addi 5 5 1] (mkMI DBG_VALUE [])
           eq_refl).
  exact (@NTT_stop Sample.target [] (Sample.addi 5 5 1) eq_refl eq_refl).
Defined.

Lemma AnalyzeBranch_opaque_witness :
  @AnalyzeBranch Sample.masks Sample.target
    (mkMBB [Sample.br BEQ 1 2 7; mkMI JALR [MO_Register 3 false]] None)
    None None [] true
  = Some (Ok (true,
       mkBranchState
         (mkMBB [Sample.br BEQ 1 2 7; mkMI JALR [MO_Register 3 false]] None)
         None None [])).
Proof.
  apply (@AnalyzeBranch_opaque Sample.masks Sample.target
           [Sample.br BEQ 1 2 7] [] (mkMI JALR [MO_Register 3 false])).
  - reflexivity.
  - reflexivity.
  - right. eexists. eexists. split; reflexivity.
  - constructor.
Defined.

Lemma InsertBranch_jump_AnalyzeBranch_witness :
  exists MBB1,
    @InsertBranch Sample.masks (mkMBB [Sample.addi 5 5 1] (Some 9%nat))
      (Some 9%nat) None []
    = Ok (1, MBB1) /\
    @AnalyzeBranch Sample.masks Sample.target MBB1 None None [] true
    = Some (Ok (false,
         mkBranchState (mkMBB [Sample.addi 5 5 1] (Some 9%nat)) None None [])).
Proof.
  apply (@InsertBranch_jump_AnalyzeBranch Sample.masks Sample.target
           (mkMBB [Sample.addi 5 5 1] (Some 9%nat)) 9%nat true).
  - exact (@NTT_stop Sample.target [] (Sample.addi 5 5 1) eq_refl eq_refl).
  - reflexivity.
Defined.

Lemma AnalyzeBranch_same_target_witness :
  exists c,
    @isBranch Sample.masks Sample.target (Sample.br BNE 1 2 7)
    = Ok (Some (c, MO_MachineBasicBlock 7)) /\
    @AnalyzeBranch Sample.masks Sample.target
      (mkMBB [Sample.br BLT 3 4 7; Sample.br BNE 1 2 7] None)
      None None [] false
    = Some (Ok (false,
         mkBranchState
           (mkMBB [Sample.br BLT 3 4 7; Sample.br BNE 1 2 7] None)
           (Some 7%nat) None
           (MO_Immediate c :: Operands (Sample.br BNE 1 2 7)))).
Proof.
  apply (@AnalyzeBranch_same_target Sample.masks Sample.target Sample_masks_ok
           [] (Sample.br BLT 3 4 7) (Sample.br BNE 1 2 7) 7%nat None false).
  - exact (@NTT_begin Sample.target).
  - reflexivity.
  - split; [reflexivity|]. eexists. eexists. reflexivity.
  - reflexivity.
  - split; [reflexivity|]. eexists. eexists. reflexivity.
Defined.

Lemma ReverseBranchCondition_InsertBranch_witness :
  exists Cond',
    @ReverseBranchCondition Sample.masks
      [MO_Immediate 4; MO_Register 1 false; MO_Register 2 false]
    = Ok (false, Cond') /\
    @InsertBranch Sample.masks (mkMBB [] None) (Some 7%nat) None Cond'
    = Ok (1, mkMBB [Sample.br BGE 1 2 7] None).
Proof.
  apply (@ReverseBranchCondition_InsertBranch Sample.masks Sample_masks_ok
           (mkMBB [] None) 7%nat 4 BGE 1 2 false false []).
  - cbn. auto 15.
  - cbn. lia.
Defined.

Lemma AnalyzeBranch_InsertBranch_synthetic_witness :
  exists st,
    @AnalyzeBranch Sample.masks Sample.target
      (mkMBB [Sample.addi 5 5 1; Sample.br BGT 1 2 7] None) None None [] false
    = Some (Ok (false, st)) /\
    stTBB st = Some 7%nat /\
    (forall MBB2 FBB,
        @InsertBranch Sample.masks MBB2 (stTBB st) FBB (stCond st)
        = Abort InvalidConditionForInsert) /\
    exists Cond',
      @ReverseBranchCondition Sample.masks (stCond st) = Ok (false, Cond') /\
      forall MBB2 FBB,
        @InsertBranch Sample.masks MBB2 (stTBB st) FBB Cond'
        = Abort InvalidConditionForInsert.
Proof.
  apply (@AnalyzeBranch_InsertBranch_synthetic Sample.masks Sample.target
           Sample_masks_ok [Sample.addi 5 5 1] 2 BGT 1 2 false false 7%nat
           None false).
  - cbn. auto.
  - exact (@NTT_stop Sample.target [] (Sample.addi 5 5 1) eq_refl eq_refl).
  - reflexivity.
Defined.


Lemma getOpcodeForOffset_range_witness :
  getOpcodeForOffset LW (-4) = Some LW /\
  getOpcodeForOffset LW (2 ^ 19) = None.
Proof.
  split.
  - apply (proj1 (getOpcodeForOffset_range LW (-4) ltac:(lia))). lia.
  - apply (proj2 (getOpcodeForOffset_range LW (2 ^ 19) ltac:(lia))). lia.
Defined.

Lemma loadImmediate_recompose_witness :
  exists Reg RegInfo' hi lo,
    @loadImmediate Sample.target (mkMBB [] None) 0 [] 5000
    = Ok (mkMBB [mkMI LUI [MO_Register Reg true; MO_Immediate hi];
                 mkMI LLI [MO_Register Reg true; MO_Register 1 false;
                           MO_Immediate lo]]
                None,
          RegInfo', Reg) /\
    0 <= hi < 2 ^ 20 /\
    0 <= lo < 2 ^ 12 /\
    hi * 2 ^ 12 + lo = 9096.
Proof.
  apply (@loadImmediate_recompose Sample.target (mkMBB [] None) 0 [] 5000);
    reflexivity.
Defined.

Lemma isSimpleMove_classifies_witness :
  @isLoadFromStackSlot Sample.target
    (mkMI LW [MO_Register (2 ^ 31 + 5) true; MO_FrameIndex 3; MO_Immediate 0;
              MO_Register 0 false]) 99
  = Ok (2 ^ 31 + 5, 3).
Proof.
  apply (proj1 (@isSimpleMove_classifies Sample.target
                  (mkMI LW [MO_Register (2 ^ 31 + 5) true; MO_FrameIndex 3;
                            MO_Immediate 0; MO_Register 0 false])
                  99 (2 ^ 31 + 5) 3 true false [] ltac:(lia) eq_refl)).
  cbn. lia.
Defined.

Lemma InsertBranch_returns_one_witness :
  1 = 1 /\ @None MBBRef = None /\ (3 <= 4)%nat /\
  exists T MI c,
    Some 7%nat = Some T /\
    mkMBB [Sample.br BLTU 1 2 7] None = mkMBB ([] ++ [MI]) None /\
    @isBranch Sample.masks Sample.target MI
    = Ok (Some (c, MO_MachineBasicBlock T)).
Proof.
  apply (@InsertBranch_returns_one Sample.masks Sample.target
           (mkMBB [] None) (mkMBB [Sample.br BLTU 1 2 7] None)
           (Some 7%nat) None
           [MO_Immediate 5; MO_Register 1 false; MO_Register 2 false] 1).
  reflexivity.
Defined.

Lemma ReverseBranchCondition_returns_witness :
  false = false /\ (3 <= 4)%nat /\
  exists c c' ops,
    [MO_Immediate 4; MO_Register 1 false; MO_Register 2 false]
    = MO_Immediate c :: ops /\
    [MO_Immediate 10; MO_Register 1 false; MO_Register 2 false]
    = MO_Immediate c' :: ops /\
    In (c, c') (@invertPairs Sample.masks).
Proof.
  apply (@ReverseBranchCondition_returns Sample.masks
           [MO_Immediate 4; MO_Register 1 false; MO_Register 2 false]
           [MO_Immediate 10; MO_Register 1 false; MO_Register 2 false] false).
  reflexivity.
Defined.

Lemma AnalyzeBranch_fatal_witness :
  BadOperandAccess = TooManyComponents \/
  exists MI,
    In MI [Sample.addi 5 5 1; mkMI BEQ []] /\
    @isBranch Sample.masks Sample.target MI = Abort BadOperandAccess.
Proof.
  apply (@AnalyzeBranch_fatal Sample.masks Sample.target
           (mkMBB [Sample.addi 5 5 1; mkMI BEQ []] None) None None [] false
           BadOperandAccess).
  - left. split; reflexivity.
  - reflexivity.
Defined.

Lemma RemoveBranch_fatal_witness :
  exists MI,
    In MI [Sample.addi 5 5 1; mkMI BEQ []] /\
    isDebugValue MI = false /\
    @isBranch Sample.masks Sample.target MI = Abort BadOperandAccess.
Proof.
  apply (@RemoveBranch_fatal Sample.masks Sample.target
           (mkMBB [Sample.addi 5 5 1; mkMI BEQ []] None) BadOperandAccess).
  reflexivity.
Defined.

Lemma AnalyzeBranch_cond_jump_witness :
  exists c,
    @isBranch Sample.masks Sample.target (Sample.br BGE 1 2 7)
    = Ok (Some (c, MO_MachineBasicBlock 7)) /\
    @AnalyzeBranch Sample.masks Sample.target
      (mkMBB ([Sample.addi 5 5 1] ++ [Sample.br BGE 1 2 7; Sample.jump 9])
             (Some 9%nat))
      None None [] true
    = Some (Ok (false,
         mkBranchState
           (mkMBB ([Sample.addi 5 5 1] ++ [Sample.br BGE 1 2 7]) (Some 9%nat))
           (Some 7%nat) None
           (MO_Immediate c :: Operands (Sample.br BGE 1 2 7)))).
Proof.
  apply (@AnalyzeBranch_cond_jump Sample.masks Sample.target Sample_masks_ok
           [Sample.addi 5 5 1] (Sample.br BGE 1 2 7) (Sample.jump 9)
           7%nat 9%nat (Some 9%nat) true).
  - exact (@NTT_stop Sample.target [] (Sample.addi 5 5 1) eq_refl eq_refl).
  - reflexivity.
  - split; [reflexivity|]. eexists. eexists. reflexivity.
  - reflexivity.
  - split; [reflexivity|]. exists []. reflexivity.
Defined.
